(** * CockroachDB dialect of the ORM: data types, capability descriptor,
      bind collector and feature-gated statements.

    Shallow embedding of [dialects/cockroachdb/data-types.ts] and
    [dialects/cockroachdb/index.ts].  JavaScript values are an inductive
    type, [throw] is the [Throw] constructor of [result], the dialect's
    warning channel is a log threaded through option checking, and the
    inherited ([super]) methods of the abstract data types, which live
    outside this dialect, are section variables. *)

From stdpp Require Import base gmap strings list.
From Stdlib Require Import ZArith Ascii String Bool Lia.
From Stdlib Require Import DecimalString DecimalZ DecimalNat.

Set Warnings "-register-all".

Local Open Scope string_scope.
Local Open Scope Z_scope.

(** ** Errors and results *)

(** What a method can throw: the typed error of
    [ValidationErrorItem.throwDataTypeValidationError], a plain [Error],
    a failed [assert], or the engine's [TypeError]. *)
Inductive error : Type :=
| DataTypeValidationError (message : string)
| GenericError (message : string)
| AssertionError (message : string)
| TypeError (message : string).

Inductive result (A : Type) : Type :=
| Ok (a : A)
| Throw (e : error).

Arguments Ok {A} a.
Arguments Throw {A} e.

Definition bind_result {A B} (r : result A) (k : A -> result B) : result B :=
  match r with
  | Ok a => k a
  | Throw e => Throw e
  end.

Notation "x <-! r ;; k" := (bind_result r (fun x => k))
  (at level 100, r at next level, right associativity).

Definition is_validation_error (e : error) : bool :=
  match e with
  | DataTypeValidationError _ => true
  | _ => false
  end.

(** ** JavaScript values *)

(** A [number] is a double: only the sentinels are told apart here, a
    finite double being [mantissa * 2 ^ exponent]. *)
Inductive number : Type :=
| NaN
| POSITIVE_INFINITY
| NEGATIVE_INFINITY
| Finite (mantissa exponent : Z).

(** An array lists its slots in index order; a slot holds an element or
    is empty ([None]), as the first slot of [[ , 1]]. *)
Inductive jsval : Type :=
| JUndefined
| JNull
| JBool (b : bool)
| JNumber (n : number)
| JBigInt (z : Z)
| JString (s : string)
| JDate (epoch_ms : Z)
| JArray (items : list (option jsval)).

(** [value === Number.POSITIVE_INFINITY] and its negative twin. *)
Definition is_positive_infinity (value : jsval) : bool :=
  match value with
  | JNumber POSITIVE_INFINITY => true
  | _ => false
  end.

Definition is_negative_infinity (value : jsval) : bool :=
  match value with
  | JNumber NEGATIVE_INFINITY => true
  | _ => false
  end.

(** [Array.isArray]. *)
Definition isArray (value : jsval) : bool :=
  match value with
  | JArray _ => true
  | _ => false
  end.

(** [String(z)] of a bigint: the decimal digits, with a leading [-]
    below zero. *)
Definition String_of_bigint (z : Z) : string :=
  NilZero.string_of_int (Z.to_int z).

(** [String(n)] of a non-negative index, as used in template strings. *)
Definition String_of_nat (n : nat) : string :=
  NilZero.string_of_uint (Nat.to_uint n).

(** ** Numbers as text *)

(** The count of decimal digits of a positive integer. *)
Definition decimal_length (v : Z) : nat := String.length (String_of_bigint v).

(** The step from one double to the next at the magnitude of [x]: one
    up to [2 ^ 53], then doubling with every binary digit. *)
Definition ulp (x : Z) : Z := 2 ^ Z.max 0 (Z.log2 x - 52).

Definition is_power_of_two (x : Z) : bool := x =? 2 ^ Z.log2 x.

(** Whether the integer [v], read as a number, is the double of value
    [x]: [v] lies within half a step above [x] and half a step below it,
    a quarter of a step below a power of two, where the doubles under
    [x] are twice as dense; the two ends count when the significand of
    [x] is even.  Both sides are compared four times enlarged. *)
Definition reads_back_as (x v : Z) : bool :=
  let u := ulp x in
  let lo := 4 * x - (if is_power_of_two x then u else 2 * u) in
  let hi := 4 * x + 2 * u in
  if Z.even (x / u) then (lo <=? 4 * v) && (4 * v <=? hi)
  else (lo <? 4 * v) && (4 * v <? hi).

(** The integer with the fewest significant digits that reads back as
    [x], and among those the nearest to [x] (the even one at equal
    distance): the multiples of [10 ^ zeros] on either side of [x] are
    tried, for fewer and fewer zeros. *)
Fixpoint shortest_decimal (zeros : nat) (x : Z) : Z :=
  match zeros with
  | O => x
  | S fewer =>
      let p := 10 ^ Z.of_nat zeros in
      let below := x / p * p in
      let above := below + p in
      match reads_back_as x below, reads_back_as x above with
      | true, true =>
          if x - below <? above - x then below
          else if above - x <? x - below then above
          else if Z.even (below / p) then below else above
      | true, false => below
      | false, true => above
      | false, false => shortest_decimal fewer x
      end
  end.

(** The digits of [v] without the zeros at their end. *)
Fixpoint strip_trailing_zeros (fuel : nat) (v : Z) : Z :=
  match fuel with
  | O => v
  | S fuel' =>
      if (v mod 10 =? 0) && negb (v =? 0)
      then strip_trailing_zeros fuel' (v / 10)
      else v
  end.

(** Exponent notation: [d.ddde+n], or [de+n] for a single digit. *)
Definition exponent_text (v : Z) : string :=
  let n := decimal_length v in
  match String_of_bigint (strip_trailing_zeros n v) with
  | EmptyString => EmptyString
  | String d EmptyString => String d ("e+" ++ String_of_nat (n - 1))
  | String d rest => String d ("." ++ rest ++ "e+" ++ String_of_nat (n - 1))
  end.

(** The text of a positive integer as [Number::toString] writes it:
    every digit up to 21 digits, exponent notation beyond. *)
Definition Number_text (v : Z) : string :=
  if v <? 10 ^ 21 then String_of_bigint v else exponent_text v.

(** [String(x)] of a number whose value is the integer [x]. *)
Definition String_of_integral_number (x : Z) : string :=
  if x =? 0 then "0"
  else if x <? 0 then
    "-" ++ Number_text (shortest_decimal (decimal_length (- x)) (- x))
  else Number_text (shortest_decimal (decimal_length x) x).

(** An integer as [sanitize] can be given one: a number whose value is
    the integer [mantissa * 2 ^ exponent], or a bigint. *)
Inductive IntegerValue : Type :=
| IntegerNumber (mantissa : Z) (exponent : N)
| IntegerBigInt (z : Z).

Definition integer_value (v : IntegerValue) : Z :=
  match v with
  | IntegerNumber mantissa exponent => mantissa * 2 ^ Z.of_N exponent
  | IntegerBigInt z => z
  end.

Definition jsval_of_integer (v : IntegerValue) : jsval :=
  match v with
  | IntegerNumber mantissa exponent => JNumber (Finite mantissa (Z.of_N exponent))
  | IntegerBigInt z => JBigInt z
  end.

(** [String(v)]. *)
Definition String_of_integer (v : IntegerValue) : string :=
  match v with
  | IntegerNumber _ _ => String_of_integral_number (integer_value v)
  | IntegerBigInt z => String_of_bigint z
  end.

(** [Array.prototype.join] on strings. *)
Fixpoint join (sep : string) (parts : list string) : string :=
  match parts with
  | [] => ""
  | [p] => p
  | p :: rest => p ++ sep ++ join sep rest
  end.

(** ** Capability descriptor *)

(** The descriptor is a tree of flags, as the object literal handed to
    [extendSupport]. *)
Inductive SupportValue : Type :=
| SBool (b : bool)
| SStr (s : string)
| SNum (n : Z)
| SMap (entries : list (string * SupportValue)).

Fixpoint assoc {V} (key : string) (entries : list (string * V)) : option V :=
  match entries with
  | [] => None
  | (k, v) :: rest => if String.eqb k key then Some v else assoc key rest
  end.

(** Nested lookup [supports.a.b.c]. *)
Fixpoint get (path : list string) (d : SupportValue) : option SupportValue :=
  match path with
  | [] => Some d
  | key :: rest =>
      match d with
      | SMap entries =>
          match assoc key entries with
          | Some v => get rest v
          | None => None
          end
      | _ => None
      end
  end.

Module CockroachDbDialect.

Definition supports : SupportValue :=
  SMap [
    ("DEFAULT VALUES", SBool true);
    ("ON DUPLICATE KEY", SBool false);
    ("ORDER NULLS", SBool true);
    ("returnValues", SStr "returning");
    ("bulkDefault", SBool true);
    ("schemas", SBool true);
    ("multiDatabases", SBool true);
    ("lock", SBool true);
    ("lockOf", SBool true);
    ("forShare", SStr "FOR SHARE");
    ("index", SMap [
      ("concurrently", SBool true);
      ("using", SNum 2);
      ("where", SBool true);
      ("functionBased", SBool true);
      ("operator", SBool true);
      ("include", SBool true)]);
    ("inserts", SMap [
      ("onConflictDoNothing", SStr " ON CONFLICT DO NOTHING");
      ("updateOnDuplicate", SStr " ON CONFLICT DO UPDATE SET");
      ("conflictFields", SBool true)]);
    ("dataTypes", SMap [
      ("ARRAY", SBool true);
      ("RANGE", SBool true);
      ("GEOMETRY", SBool true);
      ("GEOGRAPHY", SBool true);
      ("JSON", SBool true);
      ("JSONB", SBool true);
      ("HSTORE", SBool true);
      ("TSVECTOR", SBool true);
      ("CITEXT", SBool true);
      ("DATETIME", SMap [("infinity", SBool true)]);
      ("DATEONLY", SMap [("infinity", SBool true)]);
      ("FLOAT", SMap [("NaN", SBool true); ("infinity", SBool true)]);
      ("REAL", SMap [("NaN", SBool true); ("infinity", SBool true)]);
      ("DOUBLE", SMap [("NaN", SBool true); ("infinity", SBool true)]);
      ("DECIMAL", SMap [("unconstrained", SBool true); ("NaN", SBool true);
                        ("infinity", SBool true)]);
      ("CIDR", SBool true);
      ("MACADDR", SBool true);
      ("INET", SBool true)]);
    ("jsonOperations", SBool true);
    ("REGEXP", SBool true);
    ("IREGEXP", SBool true);
    ("deferrableConstraints", SBool true);
    ("searchPath", SBool true);
    ("escapeStringConstants", SBool true);
    ("globalTimeZoneConfig", SBool true);
    ("dropTable", SMap [("cascade", SBool true)]);
    ("EXCEPTION", SBool false)].

Definition name : string := "cockroachdb".
Definition TICK_CHAR : string := "`".
Definition TICK_CHAR_LEFT : string := "`".
Definition TICK_CHAR_RIGHT : string := "`".

End CockroachDbDialect.

(** ** Integer types *)

Record IntegerOptions : Type := mkIntegerOptions {
  opt_length : option Z;
  opt_unsigned : bool;
  opt_zerofill : bool
}.

(** An integer data type: its identifier ([getDataTypeId()]) and its
    options object. *)
Record BaseIntegerDataType : Type := mkInteger {
  dataTypeId : string;
  options : IntegerOptions
}.

(** The part of a dialect that option checking touches: its name and the
    advisories passed to [warnDataTypeIssue] so far. *)
Record DialectState : Type := mkDialect {
  dialect_name : string;
  warnings : list string
}.

Definition warnDataTypeIssue (message : string) (dialect : DialectState)
  : DialectState :=
  {| dialect_name := dialect_name dialect;
     warnings := warnings dialect ++ [message] |}.

Definition delete_length (o : IntegerOptions) : IntegerOptions :=
  {| opt_length := None;
     opt_unsigned := opt_unsigned o;
     opt_zerofill := opt_zerofill o |}.

(** The advisory text of [removeUnsupportedIntegerOptions]. *)
Definition length_advisory (dataType : BaseIntegerDataType)
  (dialect : DialectState) : string :=
  dialect_name dialect ++ " does not support " ++ dataTypeId dataType
    ++ " with length specified. This options is ignored.".

Definition removeUnsupportedIntegerOptions
  (dataType : BaseIntegerDataType) (dialect : DialectState)
  : BaseIntegerDataType * DialectState :=
  match opt_length (options dataType) with
  | Some _ =>
      ({| dataTypeId := dataTypeId dataType;
          options := delete_length (options dataType) |},
       warnDataTypeIssue (length_advisory dataType dialect) dialect)
  | None => (dataType, dialect)
  end.

(** The inherited [_checkOptionSupport] of the abstract integer types:
    it may throw, warn or rewrite options. *)
Definition OptionCheck : Type :=
  BaseIntegerDataType -> DialectState ->
  result (BaseIntegerDataType * DialectState).

(** The override shared by the five integer classes of this dialect:
    [super._checkOptionSupport(dialect)], then
    [removeUnsupportedIntegerOptions(this, dialect)]. *)
Definition checkOptionSupport_override (super_checkOptionSupport : OptionCheck)
  : OptionCheck :=
  fun this dialect =>
    st <-! super_checkOptionSupport this dialect ;;
    Ok (removeUnsupportedIntegerOptions (fst st) (snd st)).

Definition MAX_SAFE_INTEGER : Z := 2 ^ 53 - 1.

Module TINYINT.
Definition _checkOptionSupport := checkOptionSupport_override.
Definition toSql (this : BaseIntegerDataType) : string := "SMALLINT".
End TINYINT.

Module INTEGER.
Definition _checkOptionSupport := checkOptionSupport_override.

Definition toSql (this : BaseIntegerDataType) : string :=
  if opt_unsigned (options this) then "BIGINT" else "INTEGER".

(** The value is an integer, a number or a bigint; the outcome is a
    string or the value itself. *)
Definition sanitize (value : IntegerValue) : jsval :=
  if integer_value value >? MAX_SAFE_INTEGER
  then JString (String_of_integer value)
  else jsval_of_integer value.
End INTEGER.

Module SMALLINT.
Definition _checkOptionSupport := checkOptionSupport_override.

Definition toSql (this : BaseIntegerDataType) : string :=
  if opt_unsigned (options this) then "INTEGER" else "SMALLINT".
End SMALLINT.

Module MEDIUMINT.
Definition _checkOptionSupport := checkOptionSupport_override.
Definition toSql (this : BaseIntegerDataType) : string := "INTEGER".
End MEDIUMINT.

(** ** DATE *)

Module DATE.
Section Inherited.

(** [super.validate] and [super.toBindableValue] of the abstract DATE. *)
Variable super_validate : jsval -> result unit.
Variable super_toBindableValue : jsval -> result string.

Definition toSql (precision : option Z) : string :=
  match precision with
  | Some p => "TIMESTAMP(" ++ String_of_bigint p ++ ") WITH TIME ZONE"
  | None => "TIMESTAMP WITH TIME ZONE"
  end.

Definition validate (value : jsval) : result unit :=
  if is_positive_infinity value || is_negative_infinity value then
    Throw (DataTypeValidationError
      "CockroachDB does not support negative and positive infitnity values in date")
  else super_validate value.

Definition toBindableValue (value : jsval) : result string :=
  if is_positive_infinity value then
    Ok "294276-12-31 23:59:59.999999+00:00"
  else if is_negative_infinity value then
    Ok "-4713-11-24 00:00:00+00:00"
  else super_toBindableValue value.

End Inherited.
End DATE.

(** ** ARRAY *)

(** The abstract classes an element type is tested against with
    [instanceof]. *)
Inductive BaseClass : Type :=
| BaseSTRING
| BaseTEXT
| BaseINTEGER
| BaseOther (id : string).

(** An element data type: the base class it descends from, its inline
    renderer, which may throw, and its SQL name. *)
Record AbstractDataType : Type := mkDataType {
  base_class : BaseClass;
  dt_escape : jsval -> result string;
  dt_toSql : string
}.

(** [options.type] of an array: a raw type name or a data type. *)
Inductive ElementType : Type :=
| TypeName (s : string)
| DataType (t : AbstractDataType).

Definition isString (type : ElementType) : bool :=
  match type with
  | TypeName _ => true
  | DataType _ => false
  end.

Definition instanceof (type : ElementType) (c : BaseClass) : bool :=
  match type, c with
  | DataType t, BaseSTRING =>
      match base_class t with BaseSTRING => true | _ => false end
  | DataType t, BaseTEXT =>
      match base_class t with BaseTEXT => true | _ => false end
  | DataType t, BaseINTEGER =>
      match base_class t with BaseINTEGER => true | _ => false end
  | _, _ => false
  end.

(** The number [getArrayDepth] computes: a count or [NaN]. *)
Inductive depth : Type :=
| DepthNaN
| Depth (n : Z).

Definition depth_max (a b : depth) : depth :=
  match a, b with
  | Depth n, Depth m => Depth (Z.max n m)
  | _, _ => DepthNaN
  end.

(** [Math.max(0, ...depths)]: [NaN] among the arguments gives [NaN]. *)
Definition Math_max_0 (depths : list depth) : depth :=
  fold_right depth_max (Depth 0) depths.

(** [1 + d]. *)
Definition depth_succ (d : depth) : depth :=
  match d with
  | DepthNaN => DepthNaN
  | Depth n => Depth (1 + n)
  end.

(** [d > n]: never true of [NaN]. *)
Definition depth_gt (d : depth) (n : Z) : bool :=
  match d with
  | DepthNaN => false
  | Depth k => k >? n
  end.

(** [value.map(getArrayDepth)] leaves an empty slot empty, and the
    spread hands it to [Math.max] as [undefined], which counts as
    [NaN]. *)
Fixpoint getArrayDepth (value : jsval) : depth :=
  match value with
  | JArray items =>
      depth_succ
        (Math_max_0
           (map (fun slot =>
                   match slot with
                   | Some element => getArrayDepth element
                   | None => DepthNaN
                   end) items))
  | _ => Depth 0
  end.

(** [values.map(f)] when [f] may throw: the elements are converted in
    order and the first throw ends the loop. *)
Fixpoint map_result {A B} (f : A -> result B) (l : list A) : result (list B) :=
  match l with
  | [] => Ok []
  | x :: rest =>
      y <-! f x ;;
      ys <-! map_result f rest ;;
      Ok (y :: ys)
  end.

(** The same on an array with empty slots: [map] skips them and leaves
    them empty. *)
Definition map_slots {A B} (f : A -> result B) (slots : list (option A))
  : result (list (option B)) :=
  map_result (fun slot =>
                match slot with
                | Some element => y <-! f element ;; Ok (Some y)
                | None => Ok None
                end) slots.

Module ARRAY.
Section Inherited.

(** The engine's string conversion of a value that [join] meets. *)
Variable ToString : jsval -> string.
(** [attributeTypeToSql] of the abstract data-type utilities. *)
Variable attributeTypeToSql : ElementType -> string.
(** [super.validate] of the abstract ARRAY. *)
Variable super_validate : jsval -> result unit.

(** How [join] turns one element into text. *)
Definition join_item (value : jsval) : string :=
  match value with
  | JUndefined | JNull => ""
  | JString s => s
  | _ => ToString value
  end.

(** An empty slot joins as the empty text. *)
Definition join_slot (slot : option jsval) : string :=
  match slot with
  | Some element => join_item element
  | None => ""
  end.

(** With a raw type name the values are taken as they are; with a data
    type each element is escaped, which may throw. *)
Definition mappedValues (type : ElementType) (values : list (option jsval))
  : result (list (option jsval)) :=
  match type with
  | TypeName _ => Ok values
  | DataType t =>
      map_slots (fun value => text <-! dt_escape t value ;; Ok (JString text))
        values
  end.

Definition unambiguousType (type : ElementType) : bool :=
  instanceof type BaseSTRING
  || instanceof type BaseTEXT
  || instanceof type BaseINTEGER.

Definition cast (type : ElementType) (mapped : list (option jsval))
  : string :=
  if (Nat.eqb (List.length mapped) 0) || negb (unambiguousType type)
  then "::" ++ attributeTypeToSql type ++ "[]"
  else "".

Definition escape (type : ElementType) (values : list (option jsval))
  : result string :=
  mapped <-! mappedValues type values ;;
  Ok ("ARRAY[" ++ join "," (map join_slot mapped) ++ "]" ++ cast type mapped).

Definition validate (value : jsval) : result unit :=
  if isArray value then
    let depth := getArrayDepth value in
    if depth_gt depth 1 then
      Throw (DataTypeValidationError
        "CockroachDB does not support nested arrays.")
    else super_validate value
  else super_validate value.

End Inherited.
End ARRAY.

(** ** ENUM *)

Inductive TableName : Type :=
| TableName_string (name : string)
| TableName_object (name schema : string).

Record Attribute : Type := mkAttribute {
  field : option string
}.

Record Model : Type := mkModel {
  getTableName : TableName;
  getAttributes : gmap string Attribute
}.

(** [context.sequelize.dialect.queryGenerator]: this dialect's generator
    with its [pgEnumName], or the generator of another dialect. *)
Inductive QueryGenerator : Type :=
| CockroachDbQueryGenerator (pgEnumName : TableName -> string -> string)
| ForeignQueryGenerator.

Inductive UsageContext : Type :=
| ModelAttributeContext (model : Model) (attributeName : string)
    (queryGenerator : QueryGenerator)
| TableColumnContext (tableName : TableName) (columnName : string)
    (queryGenerator : QueryGenerator).

Definition context_queryGenerator (context : UsageContext) : QueryGenerator :=
  match context with
  | ModelAttributeContext _ _ g => g
  | TableColumnContext _ _ g => g
  end.

Module ENUM.

(** The owning (table, column) pair of a usage context. *)
Definition owner (context : UsageContext) : result (TableName * string) :=
  match context with
  | ModelAttributeContext model attributeName _ =>
      match getAttributes model !! attributeName with
      | Some attribute =>
          Ok (getTableName model,
              match field attribute with
              | Some f => f
              | None => attributeName
              end)
      | None =>
          Throw (TypeError
            "Cannot read properties of undefined (reading 'field')")
      end
  | TableColumnContext tableName columnName _ => Ok (tableName, columnName)
  end.

Definition toSql (usageContext : option UsageContext) : result string :=
  match usageContext with
  | None =>
      Throw (GenericError
        "Could not determine the name of this enum because it is not attached to an attribute or a column.")
  | Some context =>
      tc <-! owner context ;;
      match context_queryGenerator context with
      | CockroachDbQueryGenerator pgEnumName =>
          Ok (pgEnumName (fst tc) (snd tc))
      | ForeignQueryGenerator =>
          Throw (AssertionError
            "expected queryGenerator to be PostgresQueryGenerator")
      end
  end.

End ENUM.

(** ** Regular expressions *)

(** The fragment of regular expressions the dialect uses.  A pattern
    written between [^] and [$] has to match the whole input. *)
Inductive regex : Type :=
| Void
| Eps
| CharClass (accepts : ascii -> bool)
| Cat (r1 r2 : regex)
| Alt (r1 r2 : regex)
| Star (r : regex).

(** [r?] and [r+]. *)
Definition Optional (r : regex) : regex := Alt r Eps.
Definition Plus (r : regex) : regex := Cat r (Star r).

Fixpoint nullable (r : regex) : bool :=
  match r with
  | Void => false
  | Eps => true
  | CharClass _ => false
  | Cat r1 r2 => nullable r1 && nullable r2
  | Alt r1 r2 => nullable r1 || nullable r2
  | Star _ => true
  end.

Fixpoint deriv (c : ascii) (r : regex) : regex :=
  match r with
  | Void => Void
  | Eps => Void
  | CharClass accepts => if accepts c then Eps else Void
  | Cat r1 r2 =>
      if nullable r1 then Alt (Cat (deriv c r1) r2) (deriv c r2)
      else Cat (deriv c r1) r2
  | Alt r1 r2 => Alt (deriv c r1) (deriv c r2)
  | Star r1 => Cat (deriv c r1) (Star r1)
  end.

(** [/^r$/.test(s)]. *)
Fixpoint test_anchored (r : regex) (s : string) : bool :=
  match s with
  | EmptyString => nullable r
  | String c rest => test_anchored (deriv c r) rest
  end.

(** The language of a pattern. *)
Inductive Matches : regex -> string -> Prop :=
| MEps : Matches Eps ""
| MChar accepts c : accepts c = true -> Matches (CharClass accepts) (String c "")
| MCat r1 r2 s1 s2 :
    Matches r1 s1 -> Matches r2 s2 -> Matches (Cat r1 r2) (s1 ++ s2)
| MAltL r1 r2 s : Matches r1 s -> Matches (Alt r1 r2) s
| MAltR r1 r2 s : Matches r2 s -> Matches (Alt r1 r2) s
| MStarNil r : Matches (Star r) ""
| MStarCons r s1 s2 :
    Matches r s1 -> Matches (Star r) s2 -> Matches (Star r) (s1 ++ s2).

Definition ascii_in_range (lo hi c : ascii) : bool :=
  (nat_of_ascii lo <=? nat_of_ascii c)%nat
  && (nat_of_ascii c <=? nat_of_ascii hi)%nat.

(** [[0-9]] and [[-+]]. *)
Definition is_digit (c : ascii) : bool := ascii_in_range "0" "9" c.
Definition is_sign (c : ascii) : bool :=
  Ascii.eqb c "-" || Ascii.eqb c "+".

(** ** JSON text of a string, as [%j] of [util.format] prints it *)

Definition hex_digit (n : nat) : ascii :=
  match n with
  | 0 => "0" | 1 => "1" | 2 => "2" | 3 => "3" | 4 => "4"
  | 5 => "5" | 6 => "6" | 7 => "7" | 8 => "8" | 9 => "9"
  | 10 => "a" | 11 => "b" | 12 => "c" | 13 => "d" | 14 => "e"
  | _ => "f"
  end%nat%char.

Definition double_quote : ascii := "034"%char.
Definition backslash : ascii := "092"%char.

(** One character of a quoted JSON string. *)
Definition json_escape_char (c : ascii) : string :=
  let n := nat_of_ascii c in
  if Ascii.eqb c double_quote then String backslash (String double_quote "")
  else if Ascii.eqb c backslash then String backslash (String backslash "")
  else if (n =? 8)%nat then String backslash "b"
  else if (n =? 9)%nat then String backslash "t"
  else if (n =? 10)%nat then String backslash "n"
  else if (n =? 12)%nat then String backslash "f"
  else if (n =? 13)%nat then String backslash "r"
  else if (n <? 32)%nat then
    String backslash
      ("u00" ++ String (hex_digit (n / 16)) (String (hex_digit (n mod 16)) ""))
  else String c "".

Fixpoint json_escape (s : string) : string :=
  match s with
  | EmptyString => ""
  | String c rest => json_escape_char c ++ json_escape rest
  end.

Definition JSON_stringify (s : string) : string :=
  String double_quote (json_escape s ++ String double_quote "").

(** [format('%j is not a valid integer', value)] for a string value. *)
Definition format_not_a_valid_integer (value : string) : string :=
  JSON_stringify value ++ " is not a valid integer".

(** ** BIGINT *)

Module BIGINT.
Definition _checkOptionSupport := checkOptionSupport_override.

(** [/^[-+]?[0-9]+$/]. *)
Definition integer_pattern : regex :=
  Cat (Optional (CharClass is_sign)) (Plus (CharClass is_digit)).

(** [$stringify] of a string value: [String(value)] is the value. *)
Definition stringify (value : string) : result string :=
  let rep := value in
  if negb (test_anchored integer_pattern rep) then
    Throw (DataTypeValidationError (format_not_a_valid_integer value))
  else Ok rep.
End BIGINT.

(** The specification's wording of an integer literal: an optional sign
    in front of a run of decimal digits. *)
Definition all_digits (s : string) : Prop :=
  Forall (fun c => is_digit c = true) (list_ascii_of_string s).

Definition optionally_signed_digits (s : string) : Prop :=
  exists sign digits,
    s = sign ++ digits
    /\ (sign = "" \/ sign = "-" \/ sign = "+")
    /\ digits <> ""
    /\ all_digits digits.

(** ** Bind collector *)

Module BindCollector.

(** The session of one statement: the placeholder token and the values
    bound so far, oldest first. *)
Record t : Type := mkCollector {
  token : string;
  bindParams : list jsval
}.

(** Modelled from the spec: [createSpecifiedOrderedBindCollector] of
    [utils/sql] is not part of the sources at hand.  It opens the
    positional collector of section 4.3, with no value bound; the token
    is [$] unless another is given. *)
Definition createSpecifiedOrderedBindCollector (token : option string) : t :=
  {| token := default "$" token; bindParams := [] |}.

(** The text of the placeholder at a position, as in [$1, $2, ...]. *)
Definition placeholder (token : string) (position : nat) : string :=
  token ++ String_of_nat position.

(** Modelled from the spec: [bind] of the positional collector, absent
    from the sources like its constructor.  It stores the value after
    the ones bound before and answers the token followed by the position
    of the value, counted from one. *)
Definition bind (value : jsval) (c : t) : string * t :=
  let params := (bindParams c ++ [value])%list in
  (placeholder (token c) (List.length params),
   {| token := token c; bindParams := params |}).

(** Modelled from the spec: [finalize] of the positional collector,
    absent from the sources like its constructor.  It hands back the
    stored values in the order they were bound. *)
Definition finalize (c : t) : list jsval := bindParams c.

End BindCollector.

(** [CockroachDbDialect.createBindCollector]: the constructor is called
    without a token. *)
Definition createBindCollector : BindCollector.t :=
  BindCollector.createSpecifiedOrderedBindCollector None.

(** Composing one statement: values are bound and text is appended, in
    any interleaving. *)
Inductive ComposeStep : Type :=
| BindValue (value : jsval)
| AppendText (text : string).

Record Statement : Type := mkStatement {
  sqlText : string;
  placeholders : list string;
  collector : BindCollector.t
}.

Definition compose_step (st : Statement) (step : ComposeStep) : Statement :=
  match step with
  | BindValue value =>
      let '(p, c) := BindCollector.bind value (collector st) in
      {| sqlText := sqlText st ++ p;
         placeholders := placeholders st ++ [p];
         collector := c |}
  | AppendText text =>
      {| sqlText := sqlText st ++ text;
         placeholders := placeholders st;
         collector := collector st |}
  end.

Definition compose (steps : list ComposeStep) (st : Statement) : Statement :=
  fold_left compose_step steps st.

Definition new_statement : Statement :=
  {| sqlText := ""; placeholders := []; collector := createBindCollector |}.

(** The values a composition binds, in call order. *)
Fixpoint bound_values (steps : list ComposeStep) : list jsval :=
  match steps with
  | [] => []
  | BindValue v :: rest => v :: bound_values rest
  | AppendText _ :: rest => bound_values rest
  end.

(** The position a [$n] placeholder names. *)
Definition placeholder_position (p : string) : option nat :=
  match p with
  | String "$" digits =>
      match NilZero.uint_of_string digits with
      | Some d => Some (Nat.of_uint d)
      | None => None
      end
  | _ => None
  end.

(** ** Drop database *)

Module DropDatabase.

(** The two statement shapes the test expects. *)
Inductive Syntax : Type :=
| DropIfExists
| GuardedBlock.

Record Engine : Type := mkEngine {
  name : string;
  supports : SupportValue;
  TICK_CHAR_LEFT : string;
  TICK_CHAR_RIGHT : string;
  syntax : Syntax
}.

(** A boolean path that is absent reads as [false]. *)
Definition supportsDatabases (e : Engine) : bool :=
  match get ["multiDatabases"] (supports e) with
  | Some (SBool b) => b
  | _ => false
  end.

Definition quoteIdentifier (e : Engine) (quoteIdentifiers : bool)
  (identifier : string) : string :=
  if quoteIdentifiers then TICK_CHAR_LEFT e ++ identifier ++ TICK_CHAR_RIGHT e
  else identifier.

(** Modelled from the spec: [dropDatabaseQuery] of the query generators
    is not part of the sources at hand; only its unit test is.  Following
    sections 4.4 and 7, the statement is gated on the descriptor's
    database flag and fails with an error naming the engine; the texts
    are the ones [drop-database-query.test.ts] expects. *)
Definition dropDatabaseQuery (e : Engine) (quoteIdentifiers : bool)
  (database : string) : result string :=
  if supportsDatabases e then
    match syntax e with
    | DropIfExists =>
        Ok ("DROP DATABASE IF EXISTS "
              ++ quoteIdentifier e quoteIdentifiers database ++ ";")
    | GuardedBlock =>
        Ok ("IF EXISTS (SELECT * FROM sys.databases WHERE name = N'"
              ++ database ++ "' ) BEGIN DROP DATABASE ["
              ++ database ++ "] ; END;")
    end
  else Throw (GenericError ("Databases are not supported in " ++ name e ++ ".")).

(** This dialect, from its descriptor and quote characters. *)
Definition cockroachdb : Engine :=
  {| name := CockroachDbDialect.name;
     supports := CockroachDbDialect.supports;
     TICK_CHAR_LEFT := CockroachDbDialect.TICK_CHAR_LEFT;
     TICK_CHAR_RIGHT := CockroachDbDialect.TICK_CHAR_RIGHT;
     syntax := DropIfExists |}.

(** Modelled from the spec: the SQL Server dialect is not part of the
    sources at hand.  This is the engine of the test's [mssql] row: it
    supports databases, and answers the guarded block whether or not
    identifiers are quoted. *)
Definition mssql : Engine :=
  {| name := "mssql";
     supports := SMap [("multiDatabases", SBool true)];
     TICK_CHAR_LEFT := "[";
     TICK_CHAR_RIGHT := "]";
     syntax := GuardedBlock |}.

(** Modelled from the spec: the SQLite dialect is not part of the
    sources at hand.  This is an engine of the test's [default] row,
    whose descriptor marks databases as unsupported. *)
Definition sqlite : Engine :=
  {| name := "sqlite";
     supports := SMap [("multiDatabases", SBool false)];
     TICK_CHAR_LEFT := "`";
     TICK_CHAR_RIGHT := "`";
     syntax := DropIfExists |}.

End DropDatabase.

(** [haystack] contains [needle]. *)
Definition contains (needle haystack : string) : Prop :=
  exists before after, haystack = before ++ needle ++ after.

(** [s] starts with [p]. *)
Definition starts_with (p s : string) : Prop :=
  exists rest, s = p ++ rest.

(** ** Readers used to state exactness *)

(** The integer a decimal literal denotes. *)
Definition parse_decimal (s : string) : option Z :=
  option_map Z.of_int (NilZero.int_of_string s).

Definition hex_value (c : ascii) : option nat :=
  let n := nat_of_ascii c in
  if ascii_in_range "0" "9" c then Some (n - 48)%nat
  else if ascii_in_range "a" "f" c then Some (n - 87)%nat
  else None.

(** The body of a JSON string up to and including its closing quote. *)
Fixpoint json_unescape (s : string) : option string :=
  match s with
  | EmptyString => None
  | String c rest =>
      if Ascii.eqb c double_quote then
        match rest with
        | EmptyString => Some ""
        | _ => None
        end
      else if Ascii.eqb c backslash then
        match rest with
        | String e rest' =>
            if Ascii.eqb e double_quote then
              option_map (String double_quote) (json_unescape rest')
            else if Ascii.eqb e backslash then
              option_map (String backslash) (json_unescape rest')
            else if Ascii.eqb e "b" then
              option_map (String "008") (json_unescape rest')
            else if Ascii.eqb e "t" then
              option_map (String "009") (json_unescape rest')
            else if Ascii.eqb e "n" then
              option_map (String "010") (json_unescape rest')
            else if Ascii.eqb e "f" then
              option_map (String "012") (json_unescape rest')
            else if Ascii.eqb e "r" then
              option_map (String "013") (json_unescape rest')
            else if Ascii.eqb e "u" then
              match rest' with
              | String "0" (String "0" (String h (String l rest''))) =>
                  match hex_value h, hex_value l with
                  | Some x, Some y =>
                      option_map (String (ascii_of_nat (16 * x + y)))
                        (json_unescape rest'')
                  | _, _ => None
                  end
              | _ => None
              end
            else None
        | EmptyString => None
        end
      else option_map (String c) (json_unescape rest)
  end.

(** The string a JSON string literal denotes. *)
Definition JSON_parse_string (text : string) : option string :=
  match text with
  | String c body => if Ascii.eqb c double_quote then json_unescape body else None
  | EmptyString => None
  end.

(** ** Sample collaborators *)

(** An element type descending from the abstract INTEGER, rendering
    integers in decimal. *)
Definition integer_element : AbstractDataType :=
  {| base_class := BaseINTEGER;
     dt_escape := fun v =>
       match v with
       | JBigInt z => Ok (String_of_bigint z)
       | _ => Throw (DataTypeValidationError "not a valid integer")
       end;
     dt_toSql := "INTEGER" |}.

(** An element type descending from neither STRING, TEXT nor INTEGER. *)
Definition boolean_element : AbstractDataType :=
  {| base_class := BaseOther "BOOLEAN";
     dt_escape := fun v =>
       match v with
       | JBool true => Ok "true"
       | JBool false => Ok "false"
       | _ => Throw (DataTypeValidationError "not a valid boolean")
       end;
     dt_toSql := "BOOLEAN" |}.

(** A type name is its own SQL; a data type answers its [toSql]. *)
Definition sql_of_type (type : ElementType) : string :=
  match type with
  | TypeName s => s
  | DataType t => dt_toSql t
  end.

(** An inherited validation that accepts everything, and an inherited
    renderer that prints a fixed text. *)
Definition accept_all (value : jsval) : result unit := Ok tt.
Definition render_plain (value : jsval) : result string := Ok "2024-01-01 00:00:00.000 +00:00".
Definition no_text (value : jsval) : string := "".

(** A naming scheme for engine-level enum types, and a model with one
    enum attribute stored under another column name. *)
Definition sample_pgEnumName (tableName : TableName) (columnName : string)
  : string :=
  match tableName with
  | TableName_string n => "enum_" ++ n ++ "_" ++ columnName
  | TableName_object n _ => "enum_" ++ n ++ "_" ++ columnName
  end.

Definition users_model : Model :=
  {| getTableName := TableName_string "users";
     getAttributes := {[ "mood" := mkAttribute (Some "user_mood") ]} |}.

(** [s.startsWith(p)]. *)
Fixpoint startsWith (p s : string) : bool :=
  match p, s with
  | EmptyString, _ => true
  | String a p', String b s' => Ascii.eqb a b && startsWith p' s'
  | String _ _, EmptyString => false
  end.

(** [haystack.includes(needle)], decided by trying every position. *)
Fixpoint includes (needle haystack : string) : bool :=
  startsWith needle haystack
  || match haystack with
     | EmptyString => false
     | String _ rest => includes needle rest
     end.

(** Three values bound around pieces of statement text. *)
Definition sample_steps : list ComposeStep :=
  [AppendText "INSERT INTO t VALUES (";
   BindValue (JBigInt 1); AppendText ", ";
   BindValue (JString "a"); AppendText ", ";
   BindValue JNull; AppendText ")"].

(** ** Truthiness *)

(** [ToBoolean], as an [if (x)] reads a value: objects are true, the
    empty string, zero, [NaN], [null] and [undefined] are false. *)
Definition truthy (value : jsval) : bool :=
  match value with
  | JUndefined | JNull => false
  | JBool b => b
  | JNumber NaN => false
  | JNumber (Finite mantissa _) => negb (mantissa =? 0)
  | JNumber _ => true
  | JBigInt z => negb (z =? 0)
  | JString s => negb (String.eqb s "")
  | JDate _ | JArray _ => true
  end.

(** ** TEXT and BLOB *)

(** A data type whose only option of interest is [options.length]. *)
Record SizedDataType : Type := mkSized {
  size_length : jsval
}.

Definition SizedCheck : Type :=
  SizedDataType -> DialectState -> result (SizedDataType * DialectState).

(** The body both classes share after [super._checkOptionSupport]: a
    truthy length is warned about and set to [undefined]. *)
Definition drop_length_with_advisory (advisory : DialectState -> string)
  (super_checkOptionSupport : SizedCheck) : SizedCheck :=
  fun this dialect =>
    st <-! super_checkOptionSupport this dialect ;;
    if truthy (size_length (fst st)) then
      Ok ({| size_length := JUndefined |},
          warnDataTypeIssue (advisory (snd st)) (snd st))
    else Ok st.

Module TEXT.
Definition advisory (dialect : DialectState) : string :=
  dialect_name dialect
    ++ " does not support TEXT with options. Plain TEXT will be used instead.".

Definition _checkOptionSupport : SizedCheck -> SizedCheck :=
  drop_length_with_advisory advisory.
End TEXT.

Module BLOB.
Definition advisory (dialect : DialectState) : string :=
  dialect_name dialect
    ++ " does not support BLOB (BYTES) with options. Plain BYTES will be used instead.".

Definition _checkOptionSupport : SizedCheck -> SizedCheck :=
  drop_length_with_advisory advisory.

Definition toSql (this : SizedDataType) : string := "BYTES".
End BLOB.

(** ** GEOMETRY *)

(** [options.type] is a GeoJSON type name and [options.srid] an integer
    identifier; either may be missing. *)
Record GeometryOptions : Type := mkGeometryOptions {
  geo_type : option string;
  geo_srid : option Z
}.

Module GEOMETRY.
Section Engine.

(** [String.prototype.toUpperCase]. *)
Variable toUpperCase : string -> string.

Definition toSql (o : GeometryOptions) : string :=
  let result := "GEOMETRY" in
  match geo_type o with
  | Some type =>
      if String.eqb type "" then result
      else
        let result := result ++ "(" ++ toUpperCase type in
        let result :=
          match geo_srid o with
          | Some srid =>
              if srid =? 0 then result
              else result ++ "," ++ String_of_bigint srid
          | None => result
          end in
        result ++ ")"
  | None => result
  end.

End Engine.
End GEOMETRY.

(** ** ARRAY.getBindParamSql *)

Module ARRAY_bind.
Section Binding.

(** The state behind [options.bindParam], which answers a placeholder
    for the value it is given, and the element type's
    [toBindableValue]. *)
Variable BindState : Type.
Variable bindParam : jsval -> BindState -> string * BindState.
Variable toBindableValue : AbstractDataType -> jsval -> result jsval.

Definition getBindParamSql (type : ElementType)
  (values : list (option jsval)) (st : BindState)
  : result (string * BindState) :=
  match type with
  | TypeName _ => Ok (bindParam (JArray values) st)
  | DataType subType =>
      converted <-! map_slots (toBindableValue subType) values ;;
      Ok (bindParam (JArray converted) st)
  end.

End Binding.
End ARRAY_bind.

(** The five integer classes of the dialect, by their option check. *)
Definition integer_checks : list (OptionCheck -> OptionCheck) :=
  [TINYINT._checkOptionSupport; SMALLINT._checkOptionSupport;
   MEDIUMINT._checkOptionSupport; INTEGER._checkOptionSupport;
   BIGINT._checkOptionSupport].

(** Collaborators for the examples: a counter as bind state, an element
    renderer that refuses [undefined], an inherited check that changes
    nothing, and an upper-casing of the plain letters. *)
Definition count_bind (value : jsval) (n : nat) : string * nat :=
  (BindCollector.placeholder "$" (S n), S n).

Definition refuse_undefined (t : AbstractDataType) (value : jsval)
  : result jsval :=
  match value with
  | JUndefined => Throw (DataTypeValidationError "undefined is not a valid value")
  | _ => Ok value
  end.

Definition silent_check {T : Type} (this : T) (dialect : DialectState)
  : result (T * DialectState) := Ok (this, dialect).

Definition ascii_upper (c : ascii) : ascii :=
  if ascii_in_range "a" "z" c then ascii_of_nat (nat_of_ascii c - 32) else c.

Fixpoint upper_plain (s : string) : string :=
  match s with
  | EmptyString => EmptyString
  | String c rest => String (ascii_upper c) (upper_plain rest)
  end.

(** ** DATE.sanitize *)

(** [value instanceof Date]. *)
Definition isDate (value : jsval) : bool :=
  match value with
  | JDate _ => true
  | _ => false
  end.

(** [value == null]: [null] or [undefined]. *)
Definition isNullish (value : jsval) : bool :=
  match value with
  | JUndefined | JNull => true
  | _ => false
  end.

(** [DATE.sanitize], over [super.sanitize] of the abstract DATE. *)
Definition DATE_sanitize (super_sanitize : jsval -> result jsval)
  (value : jsval) : result jsval :=
  if isNullish value then Ok value
  else if isDate value then Ok value
  else super_sanitize value.

(** An inherited sanitizer that reads an epoch number as a date and
    refuses everything else. *)
Definition date_of_epoch (value : jsval) : result jsval :=
  match value with
  | JBigInt ms => Ok (JDate ms)
  | _ => Throw (DataTypeValidationError "not a valid date")
  end.

(** ** Arrays with and without empty slots *)

(** [Array.isArray] of what a slot holds; an empty slot holds nothing. *)
Definition slot_isArray (slot : option jsval) : bool :=
  match slot with
  | Some element => isArray element
  | None => false
  end.

(** No array in the value, itself included, has an empty slot. *)
Fixpoint dense (value : jsval) : bool :=
  match value with
  | JArray items =>
      forallb (fun slot =>
                 match slot with
                 | Some element => dense element
                 | None => false
                 end) items
  | _ => true
  end.

(** How [map] relates a slot to the slot it makes of it with [f]: an
    empty slot stays empty, an element becomes what [f] returns. *)
Definition slot_maps_to {A B} (f : A -> result B)
  (slot : option A) (mapped : option B) : Prop :=
  match slot, mapped with
  | None, None => True
  | Some element, Some y => f element = Ok y
  | _, _ => False
  end.

(** [f] does not throw on what the slot holds. *)
Definition slot_converts {A B} (f : A -> result B) (slot : option A) : Prop :=
  match slot with
  | None => True
  | Some element => exists y, f element = Ok y
  end.

(** The text a slot contributes once its element is escaped. *)
Definition slot_escapes_to (t : AbstractDataType)
  (slot : option jsval) (text : string) : Prop :=
  match slot with
  | None => text = ""
  | Some element => dt_escape t element = Ok text
  end.

(** A nested array with an empty slot in front, [[ , [1, 2]]], and the
    number [2 ** 60]. *)
Definition sparse_nested : jsval :=
  JArray [None; Some (JArray [Some (JBigInt 1); Some (JBigInt 2)])].

Definition two_to_the_60 : IntegerValue := IntegerNumber (2 ^ 52) 8.

(** A property holds of what the slot holds. *)
Definition slot_holds (P : jsval -> Prop) (slot : option jsval) : Prop :=
  match slot with
  | Some element => P element
  | None => True
  end.

(** Induction on values that reaches the elements of arrays. *)
Section jsval_slots_ind.

Variable P : jsval -> Prop.
Hypothesis Hother : forall value, isArray value = false -> P value.
Hypothesis Harray :
  forall items, Forall (slot_holds P) items -> P (JArray items).

Fixpoint jsval_slots_ind (value : jsval) : P value :=
  match value with
  | JUndefined => Hother JUndefined eq_refl
  | JNull => Hother JNull eq_refl
  | JBool b => Hother (JBool b) eq_refl
  | JNumber n => Hother (JNumber n) eq_refl
  | JBigInt z => Hother (JBigInt z) eq_refl
  | JString s => Hother (JString s) eq_refl
  | JDate ms => Hother (JDate ms) eq_refl
  | JArray items =>
      Harray items
        ((fix slots (l : list (option jsval)) : Forall (slot_holds P) l :=
            match l with
            | [] => List.Forall_nil (slot_holds P)
            | slot :: rest =>
                @List.Forall_cons _ (slot_holds P) slot rest
                  (match slot return slot_holds P slot with
                   | Some element => jsval_slots_ind element
                   | None => I
                   end)
                  (slots rest)
            end) items)
  end.

End jsval_slots_ind.

(** The depth [map] gives a slot, spread into [Math.max]. *)
Definition slot_depth (slot : option jsval) : depth :=
  match slot with
  | Some element => getArrayDepth element
  | None => DepthNaN
  end.

(** * Properties *)

(** ** Decimal rendering *)

Lemma Z_to_int_proper (z : Z) :
  Z.to_int z <> Decimal.Pos Decimal.Nil /\ Z.to_int z <> Decimal.Neg Decimal.Nil.
Proof.
  destruct z as [|p|p]; simpl; split; try discriminate;
    intros [= H]; exact (DecimalPos.Unsigned.to_uint_nonnil p H).
Qed.

Lemma parse_decimal_String_of_bigint (z : Z) :
  parse_decimal (String_of_bigint z) = Some z.
Proof.
  unfold parse_decimal, String_of_bigint.
  destruct (Z_to_int_proper z) as [Hp Hn].
  rewrite NilZero.isi by assumption.
  simpl. now rewrite DecimalZ.of_to.
Qed.

Lemma String_of_bigint_inj (a b : Z) :
  String_of_bigint a = String_of_bigint b -> a = b.
Proof.
  intros H.
  assert (E : parse_decimal (String_of_bigint a) = parse_decimal (String_of_bigint b))
    by now rewrite H.
  rewrite !parse_decimal_String_of_bigint in E. congruence.
Qed.

(** ** INTEGER.sanitize *)

Lemma ulp_positive (x : Z) : 0 < ulp x.
Proof. unfold ulp. apply Z.pow_pos_nonneg; lia. Qed.

Lemma reads_back_as_itself (x : Z) : reads_back_as x x = true.
Proof.
  unfold reads_back_as. pose proof (ulp_positive x).
  destruct (is_power_of_two x), (Z.even (x / ulp x));
    apply andb_true_iff; split;
    first [apply Z.leb_le | apply Z.ltb_lt]; lia.
Qed.

(** The text chosen for a number reads back as that number. *)
Lemma shortest_decimal_reads_back (zeros : nat) (x : Z) :
  reads_back_as x (shortest_decimal zeros x) = true.
Proof.
  induction zeros as [|zeros IH]; cbn [shortest_decimal].
  - apply reads_back_as_itself.
  - set (p := 10 ^ Z.of_nat (S zeros)).
    destruct (reads_back_as x (x / p * p)) eqn:B,
             (reads_back_as x (x / p * p + p)) eqn:A; try assumption.
    repeat match goal with |- context [if ?c then _ else _] => destruct c end;
      assumption.
Qed.

Lemma Number_text_below_1e21 (v : Z) :
  v < 10 ^ 21 -> Number_text v = String_of_bigint v.
Proof.
  intros H. unfold Number_text.
  destruct (Z.ltb_spec v (10 ^ 21)); [reflexivity | lia].
Qed.

Lemma Number_text_from_1e21 (v : Z) :
  10 ^ 21 <= v -> Number_text v = exponent_text v.
Proof.
  intros H. unfold Number_text.
  destruct (Z.ltb_spec v (10 ^ 21)); [lia | reflexivity].
Qed.

(** The integers that read back as one number lie side by side. *)
Lemma reads_back_convex (x a b w : Z) :
  reads_back_as x a = true -> reads_back_as x b = true ->
  a <= w <= b -> reads_back_as x w = true.
Proof.
  unfold reads_back_as. cbv zeta.
  destruct (Z.even (x / ulp x));
    rewrite !andb_true_iff, ?Z.leb_le, ?Z.ltb_lt; lia.
Qed.

(** When a multiple of [p] reads back as [x], so does one of the two
    multiples of [p] next to [x]. *)
Lemma multiple_reads_back (x p w : Z) :
  0 < p -> w mod p = 0 -> reads_back_as x w = true ->
  reads_back_as x (x / p * p) = true
  \/ reads_back_as x (x / p * p + p) = true.
Proof.
  intros Hp Hw R.
  pose proof (Z.div_mod x p ltac:(lia)) as Ex.
  pose proof (Z.mod_pos_bound x p Hp) as Bx.
  pose proof (Z.div_mod w p ltac:(lia)) as Ew. rewrite Hw in Ew.
  destruct (Z_le_gt_dec w x) as [L | G].
  - left. apply (reads_back_convex x w x);
      [exact R | apply reads_back_as_itself |].
    pose proof (Z.div_le_mono w x p Hp L). nia.
  - right. apply (reads_back_convex x x w);
      [apply reads_back_as_itself | exact R |].
    assert (x / p < w / p) by nia. nia.
Qed.

Lemma multiple_of_smaller_power (k : Z) (j n : nat) :
  (j <= n)%nat -> (k * 10 ^ Z.of_nat n) mod 10 ^ Z.of_nat j = 0.
Proof.
  intros H.
  replace (Z.of_nat n) with (Z.of_nat (n - j) + Z.of_nat j) by lia.
  rewrite Z.pow_add_r by lia. rewrite Z.mul_assoc.
  apply Z.mod_mul. apply Z.pow_nonzero; lia.
Qed.

(** No integer that reads back as [x] ends in more zeros than the one
    chosen, as far as [zeros] zeros. *)
Lemma shortest_decimal_most_zeros (zeros : nat) (x w : Z) (j : nat) :
  (j <= zeros)%nat -> w mod 10 ^ Z.of_nat j = 0 ->
  reads_back_as x w = true ->
  shortest_decimal zeros x mod 10 ^ Z.of_nat j = 0.
Proof.
  induction zeros as [|zeros IH]; intros Hj Hw R; cbn [shortest_decimal].
  - replace j with 0%nat by lia. apply Z.mod_1_r.
  - set (p := 10 ^ Z.of_nat (S zeros)).
    assert (Hbelow : (x / p * p) mod 10 ^ Z.of_nat j = 0)
      by now apply multiple_of_smaller_power.
    assert (Habove : (x / p * p + p) mod 10 ^ Z.of_nat j = 0).
    { replace (x / p * p + p) with ((x / p + 1) * p) by ring.
      now apply multiple_of_smaller_power. }
    destruct (reads_back_as x (x / p * p)) eqn:B,
             (reads_back_as x (x / p * p + p)) eqn:A; try assumption.
    + repeat match goal with |- context [if ?c then _ else _] => destruct c end;
        assumption.
    + destruct (Nat.eq_dec j (S zeros)) as [-> | Hne]; [|apply IH; [lia | |]; assumption].
      destruct (multiple_reads_back x p w) as [H | H];
        [apply Z.pow_pos_nonneg; lia | exact Hw | exact R | congruence ..].
Qed.

(** C2 (as the code has it): above [Number.MAX_SAFE_INTEGER] the result
    is [String(v)].  For a bigint that is the exact decimal string
    (reading it back gives the integer, and distinct integers give
    distinct strings).  For a number it is the text of an integer that
    reads back as the same number and ends in as many zeros as any
    integer that does, written out in full below [1e21] and in exponent
    notation from there on; it need not be the exact digits of the
    number.  Every other integer, however negative, is returned
    unchanged. *)
Theorem INTEGER_sanitize_exact (v : IntegerValue) :
  (integer_value v <= MAX_SAFE_INTEGER ->
     INTEGER.sanitize v = jsval_of_integer v)
  /\ (forall z, v = IntegerBigInt z -> z > MAX_SAFE_INTEGER ->
        INTEGER.sanitize v = JString (String_of_bigint z)
        /\ parse_decimal (String_of_bigint z) = Some z
        /\ (forall w, String_of_bigint w = String_of_bigint z -> w = z))
  /\ (forall mantissa exponent,
        v = IntegerNumber mantissa exponent ->
        integer_value v > MAX_SAFE_INTEGER ->
        exists shown,
          INTEGER.sanitize v = JString (Number_text shown)
          /\ reads_back_as (integer_value v) shown = true
          /\ (forall w j, (j <= decimal_length (integer_value v))%nat ->
                w mod 10 ^ Z.of_nat j = 0 ->
                reads_back_as (integer_value v) w = true ->
                shown mod 10 ^ Z.of_nat j = 0)
          /\ (shown < 10 ^ 21 ->
              Number_text shown = String_of_bigint shown
              /\ parse_decimal (Number_text shown) = Some shown)
          /\ (10 ^ 21 <= shown -> Number_text shown = exponent_text shown)).
Proof.
  unfold INTEGER.sanitize. split; [|split].
  - intros H. destruct (Z.gtb_spec (integer_value v) MAX_SAFE_INTEGER);
      [lia | reflexivity].
  - intros z -> Hz. cbn [integer_value String_of_integer].
    destruct (Z.gtb_spec z MAX_SAFE_INTEGER); [|lia].
    split; [reflexivity|]. split.
    + apply parse_decimal_String_of_bigint.
    + intros w. apply String_of_bigint_inj.
  - intros mantissa exponent -> Hv.
    set (x := integer_value (IntegerNumber mantissa exponent)) in *.
    destruct (Z.gtb_spec x MAX_SAFE_INTEGER) as [G | G]; [|lia].
    assert (Hpos : 0 < x) by (unfold MAX_SAFE_INTEGER in G; lia).
    exists (shortest_decimal (decimal_length x) x).
    split; [|split; [|split; [|split]]].
    + cbn [String_of_integer]. fold x. unfold String_of_integral_number.
      destruct (Z.eqb_spec x 0); [lia|].
      destruct (Z.ltb_spec x 0); [lia | reflexivity].
    + apply shortest_decimal_reads_back.
    + intros w j Hj Hw R.
      exact (shortest_decimal_most_zeros _ x w j Hj Hw R).
    + intros H. rewrite (Number_text_below_1e21 _ H).
      split; [reflexivity | apply parse_decimal_String_of_bigint].
    + apply Number_text_from_1e21.
Qed.

Lemma INTEGER_sanitize_exact_witness :
  INTEGER.sanitize (IntegerBigInt (2 ^ 53)) = JString "9007199254740992"
  /\ INTEGER.sanitize (IntegerBigInt (- 2 ^ 70)) = JBigInt (- 2 ^ 70)
  /\ exists shown,
       INTEGER.sanitize (IntegerNumber (2 ^ 52) 1)
       = JString (Number_text shown)
       /\ reads_back_as (2 ^ 53) shown = true.
Proof.
  split; [|split].
  - exact (proj1 (proj1 (proj2 (INTEGER_sanitize_exact (IntegerBigInt (2 ^ 53))))
                    (2 ^ 53) eq_refl eq_refl)).
  - exact (proj1 (INTEGER_sanitize_exact (IntegerBigInt (- 2 ^ 70)))
             ltac:(discriminate)).
  - destruct (proj2 (proj2 (INTEGER_sanitize_exact (IntegerNumber (2 ^ 52) 1)))
                (2 ^ 52) 1%N eq_refl eq_refl) as (shown & E & R & _).
    exists shown. split; [exact E | exact R].
Defined.

(** C2 fails as stated: the number [2 ** 60] is an integer above
    [Number.MAX_SAFE_INTEGER], and the string it is turned into is not
    its exact decimal string. *)
Lemma INTEGER_sanitize_number_inexact :
  integer_value two_to_the_60 > MAX_SAFE_INTEGER
  /\ INTEGER.sanitize two_to_the_60 = JString "1152921504606847000"
  /\ String_of_bigint (integer_value two_to_the_60) = "1152921504606846976"
  /\ INTEGER.sanitize two_to_the_60
     <> JString (String_of_bigint (integer_value two_to_the_60)).
Proof.
  split; [reflexivity|]. split; [vm_compute; reflexivity|].
  split; [vm_compute; reflexivity|]. vm_compute. discriminate.
Qed.

(** ** Integer rendering and option checking *)

(** C6: with the unsigned option SMALLINT renders as INTEGER and INTEGER
    as BIGINT; without it each renders its own native type.  The narrow
    types, already widened, render alike with and without the option. *)
Theorem unsigned_integer_promoted (this : BaseIntegerDataType) :
  (opt_unsigned (options this) = true ->
     SMALLINT.toSql this = "INTEGER" /\ INTEGER.toSql this = "BIGINT")
  /\ (opt_unsigned (options this) = false ->
     SMALLINT.toSql this = "SMALLINT" /\ INTEGER.toSql this = "INTEGER")
  /\ TINYINT.toSql this = "SMALLINT"
  /\ MEDIUMINT.toSql this = "INTEGER".
Proof.
  unfold SMALLINT.toSql, INTEGER.toSql.
  split; [intros ->; split; reflexivity|].
  split; [intros ->; split; reflexivity|].
  split; reflexivity.
Qed.

Lemma unsigned_integer_promoted_witness :
  (SMALLINT.toSql (mkInteger "SMALLINT" (mkIntegerOptions None true false))
     = "INTEGER"
   /\ INTEGER.toSql (mkInteger "SMALLINT" (mkIntegerOptions None true false))
     = "BIGINT")
  /\ (SMALLINT.toSql (mkInteger "INTEGER" (mkIntegerOptions None false false))
        = "SMALLINT"
      /\ INTEGER.toSql (mkInteger "INTEGER" (mkIntegerOptions None false false))
        = "INTEGER").
Proof.
  split.
  - apply (proj1 (unsigned_integer_promoted
                    (mkInteger "SMALLINT" (mkIntegerOptions None true false)))).
    reflexivity.
  - apply (proj1 (proj2 (unsigned_integer_promoted
                    (mkInteger "INTEGER" (mkIntegerOptions None false false))))).
    reflexivity.
Defined.

Lemma removeUnsupportedIntegerOptions_length
  (this : BaseIntegerDataType) (dialect : DialectState) (n : Z) :
  opt_length (options this) = Some n ->
  removeUnsupportedIntegerOptions this dialect
  = ({| dataTypeId := dataTypeId this; options := delete_length (options this) |},
     {| dialect_name := dialect_name dialect;
        warnings := warnings dialect ++ [length_advisory this dialect] |}).
Proof.
  intros H. unfold removeUnsupportedIntegerOptions. now rewrite H.
Qed.

Lemma removeUnsupportedIntegerOptions_no_length
  (this : BaseIntegerDataType) (dialect : DialectState) :
  opt_length (options this) = None ->
  removeUnsupportedIntegerOptions this dialect = (this, dialect).
Proof.
  intros H. unfold removeUnsupportedIntegerOptions. now rewrite H.
Qed.

(** C5: when the inherited check lets a TINYINT or MEDIUMINT with a
    length option through, the override clears the length, keeps the
    other options, appends exactly one advisory to the dialect's log, and
    the type renders as SMALLINT (TINYINT) or INTEGER (MEDIUMINT) both
    before and after the option is dropped. *)
Theorem narrow_integer_length_dropped
  (super_checkOptionSupport : OptionCheck)
  (this checked : BaseIntegerDataType) (dialect dialect1 : DialectState)
  (n : Z) :
  super_checkOptionSupport this dialect = Ok (checked, dialect1) ->
  opt_length (options checked) = Some n ->
  exists this' dialect',
    TINYINT._checkOptionSupport super_checkOptionSupport this dialect
      = Ok (this', dialect')
    /\ MEDIUMINT._checkOptionSupport super_checkOptionSupport this dialect
      = Ok (this', dialect')
    /\ opt_length (options this') = None
    /\ opt_unsigned (options this') = opt_unsigned (options checked)
    /\ opt_zerofill (options this') = opt_zerofill (options checked)
    /\ warnings dialect'
       = (warnings dialect1 ++ [length_advisory checked dialect1])%list
    /\ List.length (warnings dialect') = S (List.length (warnings dialect1))
    /\ TINYINT.toSql this' = "SMALLINT"
    /\ TINYINT.toSql this = TINYINT.toSql this'
    /\ MEDIUMINT.toSql this' = "INTEGER"
    /\ MEDIUMINT.toSql this = MEDIUMINT.toSql this'.
Proof.
  intros Hsuper Hlen.
  eexists _, _.
  unfold TINYINT._checkOptionSupport, MEDIUMINT._checkOptionSupport,
    checkOptionSupport_override.
  rewrite Hsuper. cbn [bind_result fst snd].
  rewrite (removeUnsupportedIntegerOptions_length _ _ _ Hlen).
  repeat split.
  cbn [warnings]. rewrite length_app. cbn. lia.
Qed.

Lemma narrow_integer_length_dropped_witness :
  exists this' dialect',
    TINYINT._checkOptionSupport (fun t d => Ok (t, d))
      (mkInteger "TINYINT" (mkIntegerOptions (Some 4) false false))
      (mkDialect "cockroachdb" [])
      = Ok (this', dialect')
    /\ opt_length (options this') = None
    /\ warnings dialect'
       = ["cockroachdb does not support TINYINT with length specified. This options is ignored."]
    /\ TINYINT.toSql this' = "SMALLINT".
Proof.
  destruct (narrow_integer_length_dropped (fun t d => Ok (t, d))
              (mkInteger "TINYINT" (mkIntegerOptions (Some 4) false false))
              (mkInteger "TINYINT" (mkIntegerOptions (Some 4) false false))
              (mkDialect "cockroachdb" []) (mkDialect "cockroachdb" []) 4
              eq_refl eq_refl)
    as (this' & dialect' & H1 & _ & H3 & _ & _ & H6 & _ & H8 & _).
  exists this', dialect'. repeat split; assumption.
Defined.

(** ** Depth of arrays *)

Lemma getArrayDepth_array_eq (items : list (option jsval)) :
  getArrayDepth (JArray items)
  = depth_succ (Math_max_0 (map slot_depth items)).
Proof. reflexivity. Qed.

Lemma getArrayDepth_not_array (value : jsval) :
  isArray value = false -> getArrayDepth value = Depth 0.
Proof. destruct value; try reflexivity. discriminate. Qed.

Lemma Math_max_0_NaN (depths : list depth) :
  In DepthNaN depths -> Math_max_0 depths = DepthNaN.
Proof.
  induction depths as [|d ds IH]; cbn [In Math_max_0 fold_right];
    [contradiction|].
  intros [-> | H]; [reflexivity|].
  fold (Math_max_0 ds). rewrite (IH H). now destruct d.
Qed.

(** What a maximum that is a count says of the arguments: all are
    counts below it, and it is zero or one of them. *)
Lemma Math_max_0_Depth (depths : list depth) (m : Z) :
  Math_max_0 depths = Depth m ->
  0 <= m
  /\ Forall (fun d => exists k, d = Depth k /\ k <= m) depths
  /\ (m = 0 \/ In (Depth m) depths).
Proof.
  revert m. induction depths as [|d ds IH]; intros m;
    cbn [Math_max_0 fold_right].
  - intros [= <-]. split; [lia|]. split; [constructor | now left].
  - fold (Math_max_0 ds). destruct d as [|n]; [discriminate|].
    destruct (Math_max_0 ds) as [|m'] eqn:E; [discriminate|].
    cbn [depth_max]. intros [= <-].
    destruct (IH m' eq_refl) as (Hm & Hall & Hin).
    split; [lia|]. split.
    + constructor; [exists n; split; [reflexivity | lia]|].
      eapply Forall_impl; [exact Hall|].
      intros d (k & -> & Hk). exists k. split; [reflexivity | lia].
    + destruct (Z.max_spec n m') as [[_ ->] | [_ ->]].
      * destruct Hin as [-> | Hin]; [now left | right; now right].
      * right. now left.
Qed.

Lemma Math_max_0_counts (depths : list depth) :
  Forall (fun d => exists k, d = Depth k) depths ->
  exists m, Math_max_0 depths = Depth m.
Proof.
  induction 1 as [|d ds (k & ->) _ (m & IH)];
    cbn [Math_max_0 fold_right]; [now exists 0|].
  fold (Math_max_0 ds). rewrite IH. now eexists.
Qed.

Lemma getArrayDepth_dense (value : jsval) :
  dense value = true ->
  exists n, getArrayDepth value = Depth n
            /\ 0 <= n /\ (isArray value = true -> 1 <= n).
Proof.
  induction value as [value Hv | items IH] using jsval_slots_ind; intros Hd.
  - exists 0. rewrite (getArrayDepth_not_array _ Hv).
    split; [reflexivity|]. split; [lia|]. congruence.
  - rewrite getArrayDepth_array_eq.
    assert (Hc : Forall (fun d => exists k, d = Depth k) (map slot_depth items)).
    { cbn [dense] in Hd. rewrite forallb_forall in Hd.
      apply List.Forall_forall. intros d Hin. apply in_map_iff in Hin.
      destruct Hin as (slot & <- & Hslot).
      rewrite List.Forall_forall in IH. specialize (IH slot Hslot).
      specialize (Hd slot Hslot). destruct slot as [element|]; [|discriminate].
      destruct (IH Hd) as (n & E & _). now exists n. }
    destruct (Math_max_0_counts _ Hc) as [m E]. rewrite E.
    destruct (Math_max_0_Depth _ _ E) as (Hm & _).
    exists (1 + m). split; [reflexivity|]. split; lia.
Qed.

Lemma getArrayDepth_sparse (value : jsval) :
  dense value = false -> getArrayDepth value = DepthNaN.
Proof.
  induction value as [value Hv | items IH] using jsval_slots_ind; intros Hd.
  - destruct value; try discriminate Hd. discriminate Hv.
  - rewrite getArrayDepth_array_eq.
    rewrite (Math_max_0_NaN (map slot_depth items)); [reflexivity|].
    cbn [dense] in Hd.
    induction items as [|slot rest IHrest]; [discriminate|].
    cbn [forallb] in Hd. inversion IH as [|? ? Hslot Hrest]; subst.
    cbn [map In].
    destruct slot as [element|]; [|now left].
    destruct (dense element) eqn:De.
    + right. apply IHrest; assumption.
    + left. now apply Hslot.
Qed.

(** A depth above one shows an element that is an array, whether or
    not the array has empty slots. *)
Lemma depth_above_one_nested (items : list (option jsval)) :
  depth_gt (getArrayDepth (JArray items)) 1 = true ->
  existsb slot_isArray items = true.
Proof.
  rewrite getArrayDepth_array_eq.
  destruct (Math_max_0 (map slot_depth items)) as [|m] eqn:E; [discriminate|].
  cbn [depth_succ depth_gt]. intros G. apply Z.gtb_lt in G.
  destruct (Math_max_0_Depth _ _ E) as (_ & _ & [-> | Hin]); [lia|].
  apply in_map_iff in Hin. destruct Hin as (slot & Hs & Hin).
  apply existsb_exists. exists slot. split; [exact Hin|].
  destruct slot as [element|]; [|discriminate Hs]. cbn in *.
  destruct (isArray element) eqn:A; [reflexivity|].
  rewrite (getArrayDepth_not_array _ A) in Hs. injection Hs as <-. lia.
Qed.

(** In an array without empty slots at any depth, an element that is an
    array puts the depth above one. *)
Lemma nested_dense_depth_above_one (items : list (option jsval)) :
  dense (JArray items) = true ->
  existsb slot_isArray items = true ->
  depth_gt (getArrayDepth (JArray items)) 1 = true.
Proof.
  intros Hd Hn.
  destruct (getArrayDepth_dense _ Hd) as (n & E & _).
  rewrite E. rewrite getArrayDepth_array_eq in E.
  destruct (Math_max_0 (map slot_depth items)) as [|m] eqn:M; [discriminate|].
  cbn [depth_succ] in E. injection E as <-.
  destruct (Math_max_0_Depth _ _ M) as (_ & Hall & _).
  apply existsb_exists in Hn. destruct Hn as (slot & Hin & Ha).
  destruct slot as [element|]; [|discriminate]. cbn in Ha.
  cbn [dense] in Hd. rewrite forallb_forall in Hd.
  pose proof (Hd _ Hin) as De. cbn in De.
  destruct (getArrayDepth_dense _ De) as (k & Ek & _ & Hk).
  rewrite List.Forall_forall in Hall.
  destruct (Hall (slot_depth (Some element)) (in_map _ _ _ Hin))
    as (k' & Ek' & Hle).
  cbn [slot_depth] in Ek'. rewrite Ek in Ek'. injection Ek' as <-.
  specialize (Hk Ha). cbn [depth_gt]. apply Z.gtb_lt. lia.
Qed.

(** ** ARRAY.validate *)

(** C4 (where the code departs from it): an array that has an empty
    slot, or holds at some depth an array that has one, gets the depth
    [NaN], which is not above one, so [ARRAY.validate] hands it to the
    inherited validation even when an element is an array, as with
    [[ , [1, 2]]]. *)
Theorem ARRAY_validate_misses_sparse_nesting
  (super_validate : jsval -> result unit) (value : jsval) :
  (dense value = false ->
     getArrayDepth value = DepthNaN
     /\ ARRAY.validate super_validate value = super_validate value)
  /\ dense sparse_nested = false
  /\ (exists items, sparse_nested = JArray items
                    /\ existsb slot_isArray items = true)
  /\ ARRAY.validate super_validate sparse_nested
     = super_validate sparse_nested.
Proof.
  split; [|split; [reflexivity | split; [now eexists | reflexivity]]].
  intros Hd. pose proof (getArrayDepth_sparse _ Hd) as E.
  split; [exact E|]. unfold ARRAY.validate. rewrite E.
  now destruct (isArray value).
Qed.

Lemma ARRAY_validate_misses_sparse_nesting_witness :
  ARRAY.validate accept_all sparse_nested = Ok tt.
Proof.
  exact (proj2 (proj1 (ARRAY_validate_misses_sparse_nesting accept_all
                         sparse_nested) eq_refl)).
Defined.

(** ** Mapping over an array *)

Lemma map_result_Ok {A B} (f : A -> result B) (l : list A) (ys : list B) :
  map_result f l = Ok ys <-> Forall2 (fun x y => f x = Ok y) l ys.
Proof.
  revert ys. induction l as [|x l IH]; intros ys; cbn [map_result].
  - split.
    + intros [= <-]. constructor.
    + intros H. inversion H. reflexivity.
  - split.
    + destruct (f x) as [y|e] eqn:Fx; cbn [bind_result]; [|discriminate].
      destruct (map_result f l) as [zs|e] eqn:M; cbn [bind_result];
        [|discriminate].
      intros [= <-]. constructor; [exact Fx | now apply IH].
    + intros H. inversion H as [|x' y l' zs Fx Hl]; subst.
      rewrite Fx. cbn [bind_result].
      apply IH in Hl. rewrite Hl. reflexivity.
Qed.

Lemma map_result_Throw {A B} (f : A -> result B) (l : list A) (e : error) :
  map_result f l = Throw e
  <-> exists before x after,
        l = (before ++ x :: after)%list
        /\ Forall (fun v => exists y, f v = Ok y) before
        /\ f x = Throw e.
Proof.
  induction l as [|x l IH]; cbn [map_result].
  - split; [discriminate|].
    intros (before & x & after & H & _). now destruct before.
  - destruct (f x) as [y|e'] eqn:Fx; cbn [bind_result].
    + destruct (map_result f l) as [zs|e'] eqn:M; cbn [bind_result].
      * split; [discriminate|].
        intros (before & x' & after & H & Hb & Hx).
        destruct before as [|b before]; cbn in H; injection H as -> ->.
        -- congruence.
        -- inversion Hb; subst.
           assert (T : Ok zs = Throw e); [|discriminate T].
           apply IH. exists before, x', after. auto.
      * split.
        -- intros [= ->]. destruct (proj1 IH eq_refl)
             as (before & x' & after & -> & Hb & Hx).
           exists (x :: before), x', after.
           split; [reflexivity|]. split; [|exact Hx].
           constructor; [now exists y | exact Hb].
        -- intros (before & x' & after & H & Hb & Hx).
           destruct before as [|b before]; cbn in H; injection H as -> ->.
           ++ congruence.
           ++ inversion Hb; subst. f_equal.
              assert (T : Throw (A := list B) e' = Throw e); [|now injection T].
              apply IH. exists before, x', after. auto.
    + split.
      * intros [= ->]. exists [], x, l. auto.
      * intros (before & x' & after & H & Hb & Hx).
        destruct before as [|b before]; cbn in H; injection H as -> ->.
        -- congruence.
        -- inversion Hb as [|? ? [y Hy] _]; subst. congruence.
Qed.

Lemma lifted_slot_Ok {A B} (f : A -> result B)
  (slot : option A) (mapped : option B) :
  match slot with
  | Some element => y <-! f element ;; Ok (Some y)
  | None => Ok None
  end = Ok mapped
  <-> slot_maps_to f slot mapped.
Proof.
  destruct slot as [element|], mapped as [y|]; cbn.
  - destruct (f element); cbn; split; congruence.
  - destruct (f element); cbn; split; (discriminate || contradiction).
  - split; [discriminate | contradiction].
  - split; auto.
Qed.

Lemma map_slots_Ok {A B} (f : A -> result B)
  (slots : list (option A)) (mapped : list (option B)) :
  map_slots f slots = Ok mapped <-> Forall2 (slot_maps_to f) slots mapped.
Proof.
  unfold map_slots. rewrite map_result_Ok. split.
  - induction 1 as [|s m ss ms H _ IH]; constructor; [|exact IH].
    now apply lifted_slot_Ok.
  - induction 1 as [|s m ss ms H _ IH]; constructor; [|exact IH].
    now apply lifted_slot_Ok.
Qed.

Lemma map_slots_Throw {A B} (f : A -> result B)
  (slots : list (option A)) (e : error) :
  map_slots f slots = Throw e
  <-> exists before x after,
        slots = (before ++ Some x :: after)%list
        /\ Forall (slot_converts f) before
        /\ f x = Throw e.
Proof.
  unfold map_slots. rewrite map_result_Throw. split.
  - intros (before & slot & after & -> & Hb & Hx).
    destruct slot as [x|]; [|discriminate Hx].
    exists before, x, after. split; [reflexivity|]. split.
    + eapply Forall_impl; [exact Hb|].
      intros [element|] [y Hy]; cbn; [|exact I].
      destruct (f element) as [z|]; [now exists z | discriminate Hy].
    + destruct (f x); cbn in Hx; [discriminate Hx | congruence].
  - intros (before & x & after & -> & Hb & Hx).
    exists before, (Some x), after. split; [reflexivity|]. split.
    + eapply Forall_impl; [exact Hb|].
      intros [element|]; cbn; [|now eexists].
      intros [y ->]. now eexists.
    + now rewrite Hx.
Qed.

(** ** ARRAY.escape *)

Lemma unambiguousType_spec (type : ElementType) :
  ARRAY.unambiguousType type = true
  <-> exists t, type = DataType t
        /\ (base_class t = BaseSTRING \/ base_class t = BaseTEXT
            \/ base_class t = BaseINTEGER).
Proof.
  unfold ARRAY.unambiguousType, instanceof. split.
  - destruct type as [s|t]; [discriminate|].
    intros H. exists t. split; [reflexivity|].
    destruct (base_class t); auto; discriminate.
  - intros (t & -> & [H | [H | H]]); rewrite H; reflexivity.
Qed.

Lemma mappedValues_length (type : ElementType)
  (values mapped : list (option jsval)) :
  ARRAY.mappedValues type values = Ok mapped ->
  List.length mapped = List.length values.
Proof.
  destruct type as [name|t]; cbn [ARRAY.mappedValues].
  - now intros [= ->].
  - intros H. apply map_slots_Ok in H. symmetry.
    eapply Forall2_length. exact H.
Qed.

(** When no element's escape throws, the elements are mapped to their
    escaped texts, slot by slot. *)
Lemma mappedValues_escaped (ToString : jsval -> string)
  (t : AbstractDataType) (values : list (option jsval)) (texts : list string) :
  Forall2 (slot_escapes_to t) values texts ->
  exists mapped,
    ARRAY.mappedValues (DataType t) values = Ok mapped
    /\ map (ARRAY.join_slot ToString) mapped = texts.
Proof.
  cbn [ARRAY.mappedValues]. unfold map_slots.
  induction 1 as [|slot text values texts H _ (mapped & E & J)];
    cbn [map_result]; [now exists []|].
  rewrite E. destruct slot as [element|]; cbn in H.
  - rewrite H. cbn [bind_result].
    exists (Some (JString text) :: mapped). split; [reflexivity|].
    cbn [map ARRAY.join_slot ARRAY.join_item]. now rewrite J.
  - subst text. cbn [bind_result].
    exists (None :: mapped). split; [reflexivity|].
    cbn [map ARRAY.join_slot]. now rewrite J.
Qed.

Lemma cast_omitted_iff (attributeTypeToSql : ElementType -> string)
  (type : ElementType) (mapped : list (option jsval)) :
  (ARRAY.cast attributeTypeToSql type mapped = ""
   <-> ARRAY.unambiguousType type = true /\ mapped <> [])
  /\ (~ (ARRAY.unambiguousType type = true /\ mapped <> []) ->
      ARRAY.cast attributeTypeToSql type mapped
      = "::" ++ attributeTypeToSql type ++ "[]").
Proof.
  unfold ARRAY.cast.
  destruct mapped as [|v vs]; cbn [List.length Nat.eqb orb].
  - split; [|reflexivity].
    split; [discriminate | intros [_ H]; now elim H].
  - destruct (ARRAY.unambiguousType type); cbn [negb].
    + split; [split; [split; [reflexivity | discriminate] | reflexivity]|].
      intros H. elim H. split; [reflexivity | discriminate].
    + split; [split; [discriminate | intros [H _]; discriminate] | reflexivity].
Qed.

(** C3 (as the code has it): [ARRAY.escape] renders [ARRAY[], the
    values joined by commas, []] and the cast.  With a raw type name the
    values are joined as they are and the cast is always there; with a
    data type each element is escaped, an empty slot giving empty text,
    and when some escape throws, [escape] throws the error of the first
    such element.  The cast is left out exactly when the element type
    descends from STRING, TEXT or INTEGER and the array is not empty,
    and is [::], the SQL of the element type and [[]] otherwise. *)
Theorem ARRAY_escape_cast
  (ToString : jsval -> string) (attributeTypeToSql : ElementType -> string)
  (type : ElementType) (values : list (option jsval)) :
  (forall name, type = TypeName name ->
     ARRAY.escape ToString attributeTypeToSql type values
     = Ok ("ARRAY[" ++ join "," (map (ARRAY.join_slot ToString) values) ++ "]"
             ++ "::" ++ attributeTypeToSql type ++ "[]"))
  /\ (forall t texts, type = DataType t ->
        Forall2 (slot_escapes_to t) values texts ->
        exists cast,
          ARRAY.escape ToString attributeTypeToSql type values
          = Ok ("ARRAY[" ++ join "," texts ++ "]" ++ cast)
          /\ (cast = "" <-> ARRAY.unambiguousType type = true /\ values <> [])
          /\ (~ (ARRAY.unambiguousType type = true /\ values <> []) ->
              cast = "::" ++ attributeTypeToSql type ++ "[]"))
  /\ (forall t e, type = DataType t ->
        (ARRAY.escape ToString attributeTypeToSql type values = Throw e
         <-> exists before x after,
               values = (before ++ Some x :: after)%list
               /\ Forall (slot_converts (dt_escape t)) before
               /\ dt_escape t x = Throw e))
  /\ (forall text,
        ARRAY.escape ToString attributeTypeToSql type values = Ok text ->
        exists body cast,
          text = "ARRAY[" ++ body ++ "]" ++ cast
          /\ (cast = "" <-> ARRAY.unambiguousType type = true /\ values <> [])
          /\ (cast <> "" -> cast = "::" ++ attributeTypeToSql type ++ "[]")).
Proof.
  assert (Hnil : forall mapped : list (option jsval),
            List.length mapped = List.length values ->
            (mapped <> [] <-> values <> [])).
  { intros mapped L. destruct mapped, values; cbn in L; try discriminate;
      split; intros H; congruence. }
  split; [|split; [|split]].
  - intros name ->. unfold ARRAY.escape. cbn [ARRAY.mappedValues bind_result].
    destruct (cast_omitted_iff attributeTypeToSql (TypeName name) values)
      as [_ H].
    rewrite H; [reflexivity|]. intros [U _]. discriminate U.
  - intros t texts -> F.
    destruct (mappedValues_escaped ToString t values texts F)
      as (mapped & E & J).
    pose proof (mappedValues_length _ _ _ E) as L.
    exists (ARRAY.cast attributeTypeToSql (DataType t) mapped).
    unfold ARRAY.escape. rewrite E. cbn [bind_result]. rewrite J.
    split; [reflexivity|].
    destruct (cast_omitted_iff attributeTypeToSql (DataType t) mapped)
      as [Hiff Hnot].
    rewrite (Hnil _ L) in Hiff, Hnot. split; assumption.
  - intros t e ->. unfold ARRAY.escape.
    destruct (ARRAY.mappedValues (DataType t) values) as [mapped|e'] eqn:E;
      cbn [bind_result].
    + split; [discriminate|].
      intros (before & x & after & Hv & Hb & Hx).
      assert (T : ARRAY.mappedValues (DataType t) values = Throw e);
        [|congruence].
      cbn [ARRAY.mappedValues]. apply map_slots_Throw.
      exists before, x, after. split; [exact Hv|]. split.
      * eapply Forall_impl; [exact Hb|].
        intros [element|]; cbn; [|auto]. intros [y ->]. now eexists.
      * now rewrite Hx.
    + cbn [ARRAY.mappedValues] in E. apply map_slots_Throw in E.
      destruct E as (before & x & after & Hv & Hb & Hx).
      assert (Hb' : Forall (slot_converts (dt_escape t)) before).
      { eapply Forall_impl; [exact Hb|].
        intros [element|]; cbn; [|auto]. intros [y Hy].
        destruct (dt_escape t element) as [s|]; [now exists s | discriminate Hy]. }
      assert (Hx' : dt_escape t x = Throw e').
      { destruct (dt_escape t x); cbn in Hx; [discriminate | congruence]. }
      split.
      * intros [= <-]. now exists before, x, after.
      * intros (before2 & x2 & after2 & Hv2 & Hb2 & Hx2). f_equal.
        assert (T : map_slots
                      (fun value => text <-! dt_escape t value ;; Ok (JString text))
                      values = Throw e).
        { apply map_slots_Throw. exists before2, x2, after2.
          split; [exact Hv2|]. split.
          - eapply Forall_impl; [exact Hb2|].
            intros [element|]; cbn; [|auto]. intros [y ->]. now eexists.
          - now rewrite Hx2. }
        assert (T' : map_slots
                       (fun value => text <-! dt_escape t value ;; Ok (JString text))
                       values = Throw e').
        { apply map_slots_Throw. exists before, x, after. auto. }
        congruence.
  - intros text. unfold ARRAY.escape.
    destruct (ARRAY.mappedValues type values) as [mapped|e] eqn:E;
      cbn [bind_result]; [|discriminate].
    intros [= <-]. pose proof (mappedValues_length _ _ _ E) as L.
    exists (join "," (map (ARRAY.join_slot ToString) mapped)),
           (ARRAY.cast attributeTypeToSql type mapped).
    split; [reflexivity|].
    destruct (cast_omitted_iff attributeTypeToSql type mapped) as [Hiff Hnot].
    rewrite (Hnil _ L) in Hiff, Hnot. split; [exact Hiff|].
    intros Hc. apply Hnot. intros H. apply Hc. now apply Hiff.
Qed.

Lemma ARRAY_escape_cast_witness :
  ARRAY.escape no_text sql_of_type (DataType integer_element)
    [Some (JBigInt 1); None; Some (JBigInt 2)] = Ok "ARRAY[1,,2]"
  /\ ARRAY.escape no_text sql_of_type (DataType integer_element)
       [Some (JBigInt 1); Some JNull]
     = Throw (DataTypeValidationError "not a valid integer").
Proof.
  split.
  - destruct (proj1 (proj2 (ARRAY_escape_cast no_text sql_of_type
                              (DataType integer_element)
                              [Some (JBigInt 1); None; Some (JBigInt 2)]))
                integer_element ["1"; ""; "2"] eq_refl)
      as (cast & E & Hc & _).
    { repeat constructor. }
    rewrite E. destruct Hc as [_ Hc].
    rewrite Hc; [reflexivity | split; [reflexivity | discriminate]].
  - apply (proj1 (proj2 (proj2 (ARRAY_escape_cast no_text sql_of_type
                                  (DataType integer_element)
                                  [Some (JBigInt 1); Some JNull])))
             integer_element _ eq_refl).
    exists [Some (JBigInt 1)], JNull, [].
    split; [reflexivity|]. split; [|reflexivity].
    constructor; [|constructor]. now eexists.
Defined.

(** C3 fails as stated: an empty array of an unambiguous element type
    still carries the cast. *)
Lemma ARRAY_escape_empty_keeps_cast :
  ARRAY.unambiguousType (DataType integer_element) = true
  /\ ARRAY.cast sql_of_type (DataType integer_element) [] <> ""
  /\ ARRAY.escape no_text sql_of_type (DataType integer_element) []
     = Ok "ARRAY[]::INTEGER[]".
Proof. repeat split. discriminate. Qed.

(** ** DATE at the infinities *)

(** C1 (as the code has it): the descriptor declares infinity support
    for DATETIME, yet [validate] rejects both infinities with a data
    validation error before the inherited validation is consulted;
    [toBindableValue] maps positive infinity to the largest and negative
    infinity to the smallest timestamp literal of the engine. *)
Theorem DATE_infinity
  (super_validate : jsval -> result unit)
  (super_toBindableValue : jsval -> result string) (value : jsval) :
  is_positive_infinity value || is_negative_infinity value = true ->
  get ["dataTypes"; "DATETIME"; "infinity"] CockroachDbDialect.supports
    = Some (SBool true)
  /\ DATE.validate super_validate value
     = Throw (DataTypeValidationError
         "CockroachDB does not support negative and positive infitnity values in date")
  /\ (is_positive_infinity value = true ->
      DATE.toBindableValue super_toBindableValue value
      = Ok "294276-12-31 23:59:59.999999+00:00")
  /\ (is_negative_infinity value = true ->
      DATE.toBindableValue super_toBindableValue value
      = Ok "-4713-11-24 00:00:00+00:00").
Proof.
  intros Hinf. split; [reflexivity|].
  unfold DATE.validate, DATE.toBindableValue. rewrite Hinf.
  split; [reflexivity|].
  split; intros H; rewrite H; [reflexivity|].
  destruct value as [| | |[]| | | |]; try discriminate. reflexivity.
Qed.

Lemma DATE_infinity_witness :
  DATE.validate accept_all (JNumber NEGATIVE_INFINITY)
  = Throw (DataTypeValidationError
      "CockroachDB does not support negative and positive infitnity values in date")
  /\ DATE.toBindableValue render_plain (JNumber NEGATIVE_INFINITY)
     = Ok "-4713-11-24 00:00:00+00:00".
Proof.
  destruct (DATE_infinity accept_all render_plain (JNumber NEGATIVE_INFINITY)
              eq_refl) as (_ & Hv & _ & Hn).
  split; [exact Hv | exact (Hn eq_refl)].
Defined.

(** C1 fails as stated: with infinity support declared and an inherited
    validation that accepts everything, [validate] still does not accept
    positive infinity. *)
Lemma DATE_validate_rejects_infinity :
  get ["dataTypes"; "DATETIME"; "infinity"] CockroachDbDialect.supports
    = Some (SBool true)
  /\ DATE.validate accept_all (JNumber POSITIVE_INFINITY) <> Ok tt.
Proof. split; [reflexivity | discriminate]. Qed.

(** ** ENUM.toSql *)

Lemma ENUM_owner_table_column (tableName : TableName) (columnName : string)
  (g : QueryGenerator) :
  ENUM.owner (TableColumnContext tableName columnName g)
  = Ok (tableName, columnName).
Proof. reflexivity. Qed.

Lemma ENUM_owner_model (model : Model) (attributeName : string)
  (attribute : Attribute) (g : QueryGenerator) :
  getAttributes model !! attributeName = Some attribute ->
  ENUM.owner (ModelAttributeContext model attributeName g)
  = Ok (getTableName model, default attributeName (field attribute)).
Proof.
  intros H. unfold ENUM.owner. rewrite H. now destruct (field attribute).
Qed.

(** C7: an ENUM with no usage context fails; one attached to a table and
    column, or to a model attribute, renders the engine-level type name
    that this dialect's query generator derives from the owning table
    and column (the attribute's field name, or the attribute name when
    it has none); and two contexts with the same owner render alike. *)
Theorem ENUM_toSql_named_by_owner
  (pgEnumName : TableName -> string -> string) :
  ENUM.toSql None
  = Throw (GenericError
      "Could not determine the name of this enum because it is not attached to an attribute or a column.")
  /\ (forall tableName columnName,
        ENUM.toSql (Some (TableColumnContext tableName columnName
                            (CockroachDbQueryGenerator pgEnumName)))
        = Ok (pgEnumName tableName columnName))
  /\ (forall model attributeName attribute,
        getAttributes model !! attributeName = Some attribute ->
        ENUM.toSql (Some (ModelAttributeContext model attributeName
                            (CockroachDbQueryGenerator pgEnumName)))
        = Ok (pgEnumName (getTableName model)
                (default attributeName (field attribute))))
  /\ (forall c1 c2 owner,
        context_queryGenerator c1 = CockroachDbQueryGenerator pgEnumName ->
        context_queryGenerator c2 = CockroachDbQueryGenerator pgEnumName ->
        ENUM.owner c1 = Ok owner -> ENUM.owner c2 = Ok owner ->
        ENUM.toSql (Some c1) = ENUM.toSql (Some c2)
        /\ ENUM.toSql (Some c1) = Ok (pgEnumName (fst owner) (snd owner)))
  /\ (forall context e,
        ENUM.owner context = Throw e -> ENUM.toSql (Some context) = Throw e).
Proof.
  split; [reflexivity|].
  split; [reflexivity|].
  split.
  { intros model attributeName attribute H. unfold ENUM.toSql.
    rewrite (ENUM_owner_model _ _ _ _ H). reflexivity. }
  split.
  - intros c1 c2 owner G1 G2 O1 O2. unfold ENUM.toSql.
    rewrite O1, O2, G1, G2. split; reflexivity.
  - intros context e H. unfold ENUM.toSql. now rewrite H.
Qed.

Lemma ENUM_toSql_named_by_owner_witness :
  ENUM.toSql
    (Some (ModelAttributeContext users_model "mood"
             (CockroachDbQueryGenerator sample_pgEnumName)))
  = Ok "enum_users_user_mood".
Proof.
  rewrite (proj1 (proj2 (proj2 (ENUM_toSql_named_by_owner sample_pgEnumName)))
             users_model "mood" (mkAttribute (Some "user_mood"))
             (lookup_singleton_eq _ _)).
  reflexivity.
Defined.

(** ** Text search *)

Lemma startsWith_starts_with (p s : string) :
  startsWith p s = true <-> starts_with p s.
Proof.
  unfold starts_with. revert s.
  induction p as [|c p IH]; intros s; simpl.
  - split; [intros _; now exists s | reflexivity].
  - destruct s as [|d s].
    + split; [discriminate | intros [rest H]; discriminate H].
    + rewrite andb_true_iff, IH, Ascii.eqb_eq.
      split.
      * intros [-> [rest ->]]. now exists rest.
      * intros [rest H]. injection H as -> ->. split; [reflexivity | now exists rest].
Qed.

Lemma includes_contains (needle haystack : string) :
  includes needle haystack = true <-> contains needle haystack.
Proof.
  unfold contains.
  induction haystack as [|c h IH]; simpl; rewrite orb_true_iff.
  - split.
    + intros [H | H]; [|discriminate].
      apply startsWith_starts_with in H as [rest H]. now exists "", rest.
    + intros (before & after & H). left. apply startsWith_starts_with.
      destruct before; simpl in H; [now exists after | discriminate].
  - rewrite IH. split.
    + intros [H | (before & after & H)].
      * apply startsWith_starts_with in H as [rest H]. now exists "", rest.
      * exists (String c before), after. simpl. now rewrite H.
    + intros (before & after & H). destruct before as [|b before].
      * left. apply startsWith_starts_with. now exists after.
      * right. injection H as _ H. now exists before, after.
Qed.

(** ** Drop database *)

(** C8 (as the test expects it): without database support the request
    fails with an error whose message names the engine, and no SQL comes
    back; with it, an engine of the DROP-IF-EXISTS family, such as this
    dialect, answers [DROP DATABASE IF EXISTS] with the (quoted) name,
    and an engine of the guarded family answers its guarded block. *)
Theorem dropDatabaseQuery_gated
  (e : DropDatabase.Engine) (quoteIdentifiers : bool) (database : string) :
  (DropDatabase.supportsDatabases e = false ->
     DropDatabase.dropDatabaseQuery e quoteIdentifiers database
     = Throw (GenericError
         ("Databases are not supported in " ++ DropDatabase.name e ++ "."))
     /\ contains (DropDatabase.name e)
          ("Databases are not supported in " ++ DropDatabase.name e ++ ".")
     /\ forall sql,
          DropDatabase.dropDatabaseQuery e quoteIdentifiers database <> Ok sql)
  /\ (DropDatabase.supportsDatabases e = true ->
      DropDatabase.syntax e = DropDatabase.DropIfExists ->
      DropDatabase.dropDatabaseQuery e quoteIdentifiers database
      = Ok ("DROP DATABASE IF EXISTS "
              ++ DropDatabase.quoteIdentifier e quoteIdentifiers database
              ++ ";"))
  /\ (DropDatabase.supportsDatabases e = true ->
      DropDatabase.syntax e = DropDatabase.GuardedBlock ->
      DropDatabase.dropDatabaseQuery e quoteIdentifiers database
      = Ok ("IF EXISTS (SELECT * FROM sys.databases WHERE name = N'"
              ++ database ++ "' ) BEGIN DROP DATABASE ["
              ++ database ++ "] ; END;"))
  /\ DropDatabase.supportsDatabases DropDatabase.cockroachdb = true
  /\ DropDatabase.dropDatabaseQuery DropDatabase.cockroachdb
       quoteIdentifiers database
     = Ok ("DROP DATABASE IF EXISTS "
             ++ DropDatabase.quoteIdentifier DropDatabase.cockroachdb
                  quoteIdentifiers database
             ++ ";")
  /\ DropDatabase.dropDatabaseQuery DropDatabase.cockroachdb false database
     = Ok ("DROP DATABASE IF EXISTS " ++ database ++ ";").
Proof.
  unfold DropDatabase.dropDatabaseQuery.
  split; [|split; [|split]].
  - intros ->. split; [reflexivity|]. split; [|discriminate].
    now exists "Databases are not supported in ", ".".
  - now intros -> ->.
  - now intros -> ->.
  - repeat split.
Qed.

Lemma dropDatabaseQuery_gated_witness :
  DropDatabase.dropDatabaseQuery DropDatabase.sqlite true "myDatabase"
  = Throw (GenericError "Databases are not supported in sqlite.")
  /\ DropDatabase.dropDatabaseQuery DropDatabase.cockroachdb false "myDatabase"
     = Ok "DROP DATABASE IF EXISTS myDatabase;".
Proof.
  split.
  - apply (proj1 (dropDatabaseQuery_gated DropDatabase.sqlite true "myDatabase")).
    reflexivity.
  - apply (proj1 (proj2 (dropDatabaseQuery_gated DropDatabase.cockroachdb false
                           "myDatabase"))); reflexivity.
Defined.

(** C8 fails as stated: the SQL Server engine supports databases, and
    its statement nowhere reads [DROP DATABASE IF EXISTS]. *)
Lemma dropDatabaseQuery_mssql_guarded :
  DropDatabase.supportsDatabases DropDatabase.mssql = true
  /\ exists sql,
       DropDatabase.dropDatabaseQuery DropDatabase.mssql true "myDatabase"
       = Ok sql
       /\ sql = "IF EXISTS (SELECT * FROM sys.databases WHERE name = N'myDatabase' ) BEGIN DROP DATABASE [myDatabase] ; END;"
       /\ ~ contains "DROP DATABASE IF EXISTS" sql.
Proof.
  split; [reflexivity|]. eexists. split; [reflexivity|]. split; [reflexivity|].
  rewrite <- includes_contains. now vm_compute.
Qed.

(** ** Bind collector *)

Lemma Nat_to_uint_nonnil (n : nat) : Nat.to_uint n <> Decimal.Nil.
Proof.
  intros E.
  assert (H : Nat.of_uint (Nat.to_uint n) = Nat.of_uint Decimal.Nil)
    by now rewrite E.
  rewrite DecimalNat.Unsigned.of_to in H. simpl in H. subst n.
  discriminate E.
Qed.

Lemma placeholder_position_placeholder (n : nat) :
  placeholder_position (BindCollector.placeholder "$" n) = Some n.
Proof.
  change (placeholder_position
            (String "$" (NilZero.string_of_uint (Nat.to_uint n))) = Some n).
  unfold placeholder_position.
  cbn -[NilZero.uint_of_string NilZero.string_of_uint Nat.to_uint Nat.of_uint].
  rewrite NilZero.usu by apply Nat_to_uint_nonnil.
  now rewrite DecimalNat.Unsigned.of_to.
Qed.

Lemma placeholder_inj (n m : nat) :
  BindCollector.placeholder "$" n = BindCollector.placeholder "$" m -> n = m.
Proof.
  intros H.
  assert (E : placeholder_position (BindCollector.placeholder "$" n)
              = placeholder_position (BindCollector.placeholder "$" m))
    by now rewrite H.
  rewrite !placeholder_position_placeholder in E. congruence.
Qed.

(** What a run of steps does to any statement whose collector uses the
    [$] token: the bound values are appended in call order and the
    placeholders continue the numbering. *)
Lemma compose_from (steps : list ComposeStep) :
  forall st : Statement,
    BindCollector.token (collector st) = "$" ->
    BindCollector.token (collector (compose steps st)) = "$"
    /\ BindCollector.bindParams (collector (compose steps st))
       = (BindCollector.bindParams (collector st) ++ bound_values steps)%list
    /\ placeholders (compose steps st)
       = (placeholders st
          ++ map (BindCollector.placeholder "$")
               (seq (S (List.length (BindCollector.bindParams (collector st))))
                    (List.length (bound_values steps))))%list.
Proof.
  unfold compose.
  induction steps as [|step steps IH]; intros st Htok.
  - cbn. now rewrite !app_nil_r.
  - destruct step as [v | text]; cbn [fold_left].
    + destruct (IH (compose_step st (BindValue v))) as (T & P & Q).
      { cbn. exact Htok. }
      split; [exact T|]. split.
      * rewrite P. cbn. now rewrite <- app_assoc.
      * rewrite Q. cbn. rewrite Htok, length_app, <- app_assoc. cbn.
        now rewrite Nat.add_1_r.
    + destruct (IH (compose_step st (AppendText text))) as (T & P & Q).
      { cbn. exact Htok. }
      split; [exact T|]. split; [exact P | exact Q].
Qed.

Lemma map_Some_lt (positions : list nat) (i j a b : nat) :
  (forall i j a b, (i < j)%nat ->
     nth_error positions i = Some a -> nth_error positions j = Some b ->
     (a < b)%nat) ->
  (i < j)%nat ->
  nth_error (map Some positions) i = Some (Some a) ->
  nth_error (map Some positions) j = Some (Some b) ->
  (a < b)%nat.
Proof.
  intros Hmono Hij Hi Hj.
  rewrite nth_error_map in Hi, Hj.
  destruct (nth_error positions i) as [a'|] eqn:Ei; [|discriminate].
  destruct (nth_error positions j) as [b'|] eqn:Ej; [|discriminate].
  injection Hi as ->. injection Hj as ->. eauto.
Qed.

Lemma NoDup_map_Some (positions : list nat) :
  List.NoDup positions -> List.NoDup (map Some positions).
Proof.
  induction 1 as [|x l Hx Hl IH]; cbn; constructor; [|exact IH].
  rewrite in_map_iff. intros (y & [= ->] & Hy). contradiction.
Qed.

Lemma seq_increasing (start len i j a b : nat) :
  (i < j)%nat ->
  nth_error (seq start len) i = Some a ->
  nth_error (seq start len) j = Some b ->
  (a < b)%nat.
Proof.
  intros Hij Hi Hj.
  assert (Li : (i < len)%nat).
  { rewrite <- (length_seq len start). apply nth_error_Some. congruence. }
  assert (Lj : (j < len)%nat).
  { rewrite <- (length_seq len start). apply nth_error_Some. congruence. }
  rewrite nth_error_seq in Hi, Hj.
  destruct (Nat.ltb_spec i len); [|lia].
  destruct (Nat.ltb_spec j len); [|lia].
  injection Hi as <-. injection Hj as <-. lia.
Qed.

(** C9: in one statement that binds [N] values, however the bind calls
    are interleaved with text, the placeholders are [$1] to [$N] in call
    order, hence pairwise distinct and strictly increasing in position,
    and [finalize] returns the values in the order they were bound. *)
Theorem bind_collector_order (steps : list ComposeStep) :
  BindCollector.finalize (collector (compose steps new_statement))
    = bound_values steps
  /\ placeholders (compose steps new_statement)
     = map (BindCollector.placeholder "$")
         (seq 1 (List.length (bound_values steps)))
  /\ List.length (placeholders (compose steps new_statement))
     = List.length (BindCollector.finalize
                      (collector (compose steps new_statement)))
  /\ List.NoDup (placeholders (compose steps new_statement))
  /\ (forall i j a b, (i < j)%nat ->
        nth_error (map placeholder_position
                     (placeholders (compose steps new_statement))) i
          = Some (Some a) ->
        nth_error (map placeholder_position
                     (placeholders (compose steps new_statement))) j
          = Some (Some b) ->
        (a < b)%nat)
  /\ (forall i p v,
        nth_error (placeholders (compose steps new_statement)) i = Some p ->
        nth_error (bound_values steps) i = Some v ->
        placeholder_position p = Some (S i)).
Proof.
  destruct (compose_from steps new_statement eq_refl) as (_ & P & Q).
  cbn [new_statement collector placeholders createBindCollector
       BindCollector.createSpecifiedOrderedBindCollector
       BindCollector.bindParams List.length app] in P, Q.
  unfold BindCollector.finalize. rewrite P, Q.
  set (n := List.length (bound_values steps)).
  assert (Hpos : map placeholder_position
                   (map (BindCollector.placeholder "$") (seq 1 n))
                 = map Some (seq 1 n)).
  { rewrite map_map. apply map_ext. intros k.
    apply placeholder_position_placeholder. }
  split; [reflexivity|]. split; [reflexivity|].
  split; [now rewrite length_map, length_seq|].
  split.
  - apply (NoDup_map_inv placeholder_position). rewrite Hpos.
    apply NoDup_map_Some, seq_NoDup.
  - split.
    + rewrite Hpos. intros i j a b. apply map_Some_lt.
      intros i' j' a' b'. apply seq_increasing.
    + intros i p v Hp Hv.
      assert (Li : (i < n)%nat).
      { unfold n. apply nth_error_Some. congruence. }
      rewrite nth_error_map, nth_error_seq in Hp.
      destruct (Nat.ltb_spec i n); [|lia].
      injection Hp as <-. apply placeholder_position_placeholder.
Qed.

Lemma bind_collector_order_witness :
  BindCollector.finalize (collector (compose sample_steps new_statement))
    = [JBigInt 1; JString "a"; JNull]
  /\ placeholders (compose sample_steps new_statement) = ["$1"; "$2"; "$3"]
  /\ (1 < 3)%nat.
Proof.
  destruct (bind_collector_order sample_steps) as (F & P & _ & _ & M & _).
  split; [exact F|]. split; [exact P|].
  exact (M 0%nat 2%nat 1%nat 3%nat (Nat.lt_0_succ 1) eq_refl eq_refl).
Defined.

(** ** Regular expression matching *)

Lemma append_nil_l (s : string) : "" ++ s = s.
Proof. reflexivity. Qed.

Lemma append_cons (a : ascii) (s1 s2 : string) :
  String a s1 ++ s2 = String a (s1 ++ s2).
Proof. reflexivity. Qed.

Lemma append_empty_inv (s1 s2 : string) : s1 ++ s2 = "" -> s1 = "" /\ s2 = "".
Proof.
  destruct s1; [rewrite append_nil_l; now intros -> |].
  rewrite append_cons. discriminate.
Qed.

Lemma nullable_Matches (r : regex) : nullable r = true <-> Matches r "".
Proof.
  split.
  - induction r; simpl; intros H; try discriminate.
    + constructor.
    + apply andb_true_iff in H as [H1 H2].
      change "" with ("" ++ ""). constructor; auto.
    + apply orb_true_iff in H as [H | H]; [apply MAltL | apply MAltR]; auto.
    + constructor.
  - intros H. remember "" as s eqn:E.
    induction H; simpl; try reflexivity; try discriminate.
    + apply append_empty_inv in E as [-> ->].
      rewrite IHMatches1, IHMatches2; reflexivity.
    + rewrite IHMatches; [reflexivity | assumption].
    + rewrite IHMatches; [apply orb_true_r | assumption].
Qed.

Lemma deriv_sound (c : ascii) (r : regex) :
  forall s, Matches (deriv c r) s -> Matches r (String c s).
Proof.
  induction r as [| |accepts|r1 IH1 r2 IH2|r1 IH1 r2 IH2|r IH];
    simpl; intros s H.
  - inversion H.
  - inversion H.
  - destruct (accepts c) eqn:A; inversion H; subst. now constructor.
  - assert (Hcat : forall t, Matches (Cat (deriv c r1) r2) t ->
                             Matches (Cat r1 r2) (String c t)).
    { intros t Ht. inversion Ht; subst.
      change (String c (s1 ++ s2)) with (String c s1 ++ s2).
      constructor; auto. }
    destruct (nullable r1) eqn:N; [|now apply Hcat].
    inversion H; subst; [now apply Hcat|].
    change (String c s) with ("" ++ String c s).
    constructor; [now apply nullable_Matches | auto].
  - inversion H; subst; [apply MAltL | apply MAltR]; auto.
  - inversion H; subst.
    change (String c (s1 ++ s2)) with (String c s1 ++ s2).
    constructor; auto.
Qed.

Lemma deriv_complete (r : regex) (cs : string) :
  Matches r cs -> forall c s, cs = String c s -> Matches (deriv c r) s.
Proof.
  induction 1 as [|accepts a A|r1 r2 s1 s2 H1 IH1 H2 IH2|r1 r2 t H IH
                  |r1 r2 t H IH|r|r s1 s2 H1 IH1 H2 IH2];
    intros c s E; simpl.
  - discriminate.
  - injection E as -> <-. rewrite A. constructor.
  - destruct s1 as [|a s1];
      [rewrite append_nil_l in E | rewrite append_cons in E].
    + apply nullable_Matches in H1. rewrite H1. apply MAltR. now apply IH2.
    + injection E as -> <-.
      destruct (nullable r1); [apply MAltL|]; constructor; auto.
  - apply MAltL. auto.
  - apply MAltR. auto.
  - discriminate.
  - destruct s1 as [|a s1];
      [rewrite append_nil_l in E | rewrite append_cons in E].
    + now apply IH2.
    + injection E as -> <-. constructor; auto.
Qed.

(** The derivative matcher decides the language of the pattern. *)
Lemma test_anchored_Matches (s : string) :
  forall r, test_anchored r s = true <-> Matches r s.
Proof.
  induction s as [|c s IH]; intros r; simpl.
  - apply nullable_Matches.
  - rewrite IH. split.
    + apply deriv_sound.
    + intros H. now apply (deriv_complete r (String c s)).
Qed.

(** ** The integer pattern of BIGINT *)

Lemma all_digits_nil : all_digits "".
Proof. constructor. Qed.

Lemma all_digits_cons (c : ascii) (s : string) :
  all_digits (String c s) <-> is_digit c = true /\ all_digits s.
Proof.
  unfold all_digits. simpl. split.
  - intros H. inversion H; subst. auto.
  - intros [Hc Hs]. now constructor.
Qed.

Lemma digit_star_Matches (s : string) :
  Matches (Star (CharClass is_digit)) s <-> all_digits s.
Proof.
  split.
  - intros H. remember (Star (CharClass is_digit)) as r eqn:E.
    induction H as [| | | | | |r s1 s2 H1 _ H2 IH2]; try discriminate.
    + apply all_digits_nil.
    + injection E as ->. inversion H1; subst.
      rewrite append_cons, append_nil_l. apply all_digits_cons. auto.
  - induction s as [|c s IH]; intros H.
    + constructor.
    + apply all_digits_cons in H as [Hc Hs].
      change (String c s) with (String c "" ++ s).
      constructor; [now constructor | auto].
Qed.

Lemma digit_plus_Matches (s : string) :
  Matches (Plus (CharClass is_digit)) s <-> s <> "" /\ all_digits s.
Proof.
  unfold Plus. split.
  - intros H. inversion H as [| |r1 r2 s1 s2 H1 H2| | | |]; subst.
    inversion H1; subst. rewrite append_cons, append_nil_l.
    split; [discriminate|].
    apply all_digits_cons. split; [assumption | now apply digit_star_Matches].
  - intros [Hne H]. destruct s as [|c s]; [contradiction|].
    apply all_digits_cons in H as [Hc Hs].
    change (String c s) with (String c "" ++ s).
    constructor; [now constructor | now apply digit_star_Matches].
Qed.

Lemma is_sign_spec (c : ascii) :
  is_sign c = true <-> c = "-"%char \/ c = "+"%char.
Proof.
  unfold is_sign. now rewrite orb_true_iff, !Ascii.eqb_eq.
Qed.

(** The pattern accepts what the specification calls an optionally
    signed run of decimal digits, and nothing else. *)
Lemma integer_pattern_Matches (s : string) :
  Matches BIGINT.integer_pattern s <-> optionally_signed_digits s.
Proof.
  unfold BIGINT.integer_pattern, optionally_signed_digits, Optional. split.
  - intros H. inversion H as [| |r1 r2 s1 s2 H1 H2| | | |]; subst.
    apply digit_plus_Matches in H2 as [Hne Hd].
    exists s1, s2. split; [reflexivity|]. split; [|auto].
    inversion H1 as [| | |r1 r2 t Hs|r1 r2 t He| |]; subst.
    + inversion Hs as [|accepts c Hc| | | | |]; subst.
      apply is_sign_spec in Hc as [-> | ->]; auto.
    + inversion He. auto.
  - intros (sign & digits & -> & Hsign & Hne & Hd).
    constructor; [|now apply digit_plus_Matches].
    destruct Hsign as [-> | [-> | ->]].
    + apply MAltR. constructor.
    + apply MAltL. now constructor.
    + apply MAltL. now constructor.
Qed.

Lemma integer_test_spec (s : string) :
  test_anchored BIGINT.integer_pattern s = true <-> optionally_signed_digits s.
Proof. now rewrite test_anchored_Matches, integer_pattern_Matches. Qed.

(** ** JSON text of the offending value *)

Lemma json_unescape_char (c : ascii) (tail : string) :
  json_unescape (json_escape_char c ++ tail)
  = option_map (String c) (json_unescape tail).
Proof.
  destruct c as [[] [] [] [] [] [] [] []]; reflexivity.
Qed.

Lemma append_assoc (s1 s2 s3 : string) : (s1 ++ s2) ++ s3 = s1 ++ (s2 ++ s3).
Proof.
  induction s1 as [|c s1 IH]; [reflexivity|].
  now rewrite !append_cons, IH.
Qed.

Lemma json_unescape_escape (s : string) :
  json_unescape (json_escape s ++ String double_quote "") = Some s.
Proof.
  induction s as [|c s IH]; [reflexivity|].
  cbn [json_escape]. rewrite append_assoc, json_unescape_char, IH.
  reflexivity.
Qed.

(** Reading the JSON text of a string back gives the string. *)
Lemma JSON_parse_stringify (s : string) :
  JSON_parse_string (JSON_stringify s) = Some s.
Proof.
  unfold JSON_parse_string, JSON_stringify.
  rewrite Ascii.eqb_refl. apply json_unescape_escape.
Qed.

(** ** BIGINT.$stringify *)

(** C10: a string that is an optionally signed run of decimal digits is
    returned unchanged; any other string raises the typed data
    validation error, and no other kind of error, whose message is the
    JSON text of the offending string (from which the string can be read
    back) followed by [ is not a valid integer]. *)
Theorem BIGINT_stringify_checked (value : string) :
  (optionally_signed_digits value -> BIGINT.stringify value = Ok value)
  /\ (~ optionally_signed_digits value ->
      BIGINT.stringify value
      = Throw (DataTypeValidationError
                 (JSON_stringify value ++ " is not a valid integer"))
      /\ JSON_parse_string (JSON_stringify value) = Some value)
  /\ (forall e, BIGINT.stringify value = Throw e ->
        is_validation_error e = true /\ ~ optionally_signed_digits value).
Proof.
  unfold BIGINT.stringify.
  pose proof (integer_test_spec value) as Htest.
  destruct (test_anchored BIGINT.integer_pattern value); cbn [negb].
  - split; [reflexivity|]. split.
    + intros H. elim H. now apply Htest.
    + discriminate.
  - assert (Hno : ~ optionally_signed_digits value).
    { intros H. apply Htest in H. discriminate. }
    split; [intros H; now elim Hno|]. split.
    + intros _. split; [reflexivity | apply JSON_parse_stringify].
    + intros e [= <-]. split; [reflexivity | exact Hno].
Qed.

Lemma BIGINT_stringify_checked_witness :
  BIGINT.stringify "-9223372036854775808" = Ok "-9223372036854775808"
  /\ BIGINT.stringify "12a"
     = Throw (DataTypeValidationError
                (JSON_stringify "12a" ++ " is not a valid integer")).
Proof.
  split.
  - apply (proj1 (BIGINT_stringify_checked "-9223372036854775808")).
    apply integer_test_spec. reflexivity.
  - apply (proj1 (proj2 (BIGINT_stringify_checked "12a"))).
    intros H. apply integer_test_spec in H. discriminate H.
Defined.

(** * Further properties of the data types *)

(** ** Option checking of the integer types *)

(** X1: [removeUnsupportedIntegerOptions] never leaves a length behind,
    touches nothing else of the type or the dialect's name, keeps every
    earlier advisory and adds one exactly when a length was set; run
    again on its own outcome it changes nothing. *)
Theorem removeUnsupportedIntegerOptions_settles
  (dataType : BaseIntegerDataType) (dialect : DialectState) :
  let r := removeUnsupportedIntegerOptions dataType dialect in
  opt_length (options (fst r)) = None
  /\ dataTypeId (fst r) = dataTypeId dataType
  /\ opt_unsigned (options (fst r)) = opt_unsigned (options dataType)
  /\ opt_zerofill (options (fst r)) = opt_zerofill (options dataType)
  /\ dialect_name (snd r) = dialect_name dialect
  /\ (opt_length (options dataType) = None -> r = (dataType, dialect))
  /\ (opt_length (options dataType) <> None ->
      warnings (snd r)
      = (warnings dialect ++ [length_advisory dataType dialect])%list)
  /\ removeUnsupportedIntegerOptions (fst r) (snd r) = r.
Proof.
  unfold removeUnsupportedIntegerOptions.
  destruct dataType as [id [len u z]]; destruct len as [n|]; cbn.
  - repeat split; try reflexivity. intros H. now elim H.
  - repeat split; try reflexivity. intros H. now elim H.
Qed.

Lemma removeUnsupportedIntegerOptions_settles_witness :
  warnings (snd (removeUnsupportedIntegerOptions
                   (mkInteger "BIGINT" (mkIntegerOptions (Some 0) true false))
                   (mkDialect "cockroachdb" ["earlier advisory"])))
  = ["earlier advisory";
     "cockroachdb does not support BIGINT with length specified. This options is ignored."]
  /\ removeUnsupportedIntegerOptions
       (mkInteger "BIGINT" (mkIntegerOptions None true false))
       (mkDialect "cockroachdb" [])
     = (mkInteger "BIGINT" (mkIntegerOptions None true false),
        mkDialect "cockroachdb" []).
Proof.
  split.
  - pose proof (removeUnsupportedIntegerOptions_settles
                  (mkInteger "BIGINT" (mkIntegerOptions (Some 0) true false))
                  (mkDialect "cockroachdb" ["earlier advisory"])) as H.
    cbv zeta in H. destruct H as (_ & _ & _ & _ & _ & _ & H & _).
    apply H. discriminate.
  - pose proof (removeUnsupportedIntegerOptions_settles
                  (mkInteger "BIGINT" (mkIntegerOptions None true false))
                  (mkDialect "cockroachdb" [])) as H.
    cbv zeta in H. destruct H as (_ & _ & _ & _ & _ & H & _).
    apply H. reflexivity.
Defined.

(** X2: for each of the five integer classes, an error of the inherited
    option check comes out unchanged and nothing further is recorded;
    when the inherited check passes, the outcome has no length option,
    and its advisories are those of the inherited check followed by at
    most the one about the length. *)
Theorem integer_checkOptionSupport_outcome
  (check : OptionCheck -> OptionCheck) (super_checkOptionSupport : OptionCheck)
  (this : BaseIntegerDataType) (dialect : DialectState) :
  In check integer_checks ->
  (forall e, super_checkOptionSupport this dialect = Throw e ->
     check super_checkOptionSupport this dialect = Throw e)
  /\ (forall checked dialect1,
        super_checkOptionSupport this dialect = Ok (checked, dialect1) ->
        exists this' dialect',
          check super_checkOptionSupport this dialect = Ok (this', dialect')
          /\ opt_length (options this') = None
          /\ opt_unsigned (options this') = opt_unsigned (options checked)
          /\ (warnings dialect' = warnings dialect1
              \/ warnings dialect'
                 = (warnings dialect1
                    ++ [length_advisory checked dialect1])%list))
  /\ (forall e, check super_checkOptionSupport this dialect = Throw e ->
        super_checkOptionSupport this dialect = Throw e).
Proof.
  intros Hin.
  assert (Hc : check = checkOptionSupport_override).
  { cbn in Hin. repeat (destruct Hin as [<- | Hin]; [reflexivity|]).
    contradiction. }
  subst check. unfold checkOptionSupport_override.
  split; [|split].
  - intros e ->. reflexivity.
  - intros checked dialect1 ->. cbn [bind_result fst snd].
    destruct (opt_length (options checked)) as [n|] eqn:L.
    + rewrite (removeUnsupportedIntegerOptions_length _ _ _ L).
      eexists _, _. split; [reflexivity|]. split; [reflexivity|].
      split; [reflexivity|]. now right.
    + rewrite (removeUnsupportedIntegerOptions_no_length _ _ L).
      exists checked, dialect1. split; [reflexivity|]. split; [exact L|].
      split; [reflexivity|]. now left.
  - intros e. destruct (super_checkOptionSupport this dialect) as [[t d]|e'];
      cbn [bind_result]; [discriminate | now intros [= ->]].
Qed.

Lemma integer_checkOptionSupport_outcome_witness :
  BIGINT._checkOptionSupport
    (fun _ _ => Throw (GenericError "BIGINT.ZEROFILL is not supported"))
    (mkInteger "BIGINT" (mkIntegerOptions (Some 20) false true))
    (mkDialect "cockroachdb" [])
  = Throw (GenericError "BIGINT.ZEROFILL is not supported").
Proof.
  apply (proj1 (integer_checkOptionSupport_outcome BIGINT._checkOptionSupport
                  (fun _ _ => Throw (GenericError "BIGINT.ZEROFILL is not supported"))
                  (mkInteger "BIGINT" (mkIntegerOptions (Some 20) false true))
                  (mkDialect "cockroachdb" [])
                  ltac:(cbn; tauto))).
  reflexivity.
Defined.

(** ** Depth of arrays, element by element *)

(** X3: [getArrayDepth] is zero exactly on values that are not arrays,
    and [NaN] exactly on arrays that have an empty slot or hold, at some
    depth, an array that has one.  An array free of empty slots at every
    depth has a count as depth, above the depth of each of its elements:
    one when no element is an array, and one more than the depth of some
    element that is an array otherwise. *)
Theorem getArrayDepth_characterised
  (value : jsval) (items : list (option jsval)) :
  (getArrayDepth value = Depth 0 <-> isArray value = false)
  /\ (getArrayDepth value = DepthNaN <-> dense value = false)
  /\ (dense (JArray items) = true ->
      exists n,
        getArrayDepth (JArray items) = Depth n
        /\ (forall x, In (Some x) items ->
              exists k, getArrayDepth x = Depth k /\ k < n)
        /\ (existsb slot_isArray items = false -> n = 1)
        /\ (existsb slot_isArray items = true ->
            exists x k, In (Some x) items /\ isArray x = true
              /\ getArrayDepth x = Depth k /\ n = 1 + k)).
Proof.
  split; [|split].
  - split; [|apply getArrayDepth_not_array].
    destruct value as [| | | | | | |elements]; try reflexivity.
    rewrite getArrayDepth_array_eq.
    destruct (Math_max_0 (map slot_depth elements)) as [|m] eqn:E;
      [discriminate|].
    destruct (Math_max_0_Depth _ _ E) as (Hm & _).
    cbn [depth_succ]. intros [= H]. lia.
  - split; [|apply getArrayDepth_sparse].
    destruct (dense value) eqn:D; [|reflexivity].
    destruct (getArrayDepth_dense _ D) as (n & E & _). congruence.
  - intros D. pose proof D as Dall. cbn [dense] in Dall.
    rewrite forallb_forall in Dall.
    destruct (getArrayDepth_dense _ D) as (n & E & _).
    exists n. split; [exact E|].
    rewrite getArrayDepth_array_eq in E.
    destruct (Math_max_0 (map slot_depth items)) as [|m] eqn:M;
      [discriminate|].
    cbn [depth_succ] in E. injection E as <-.
    destruct (Math_max_0_Depth _ _ M) as (Hm & Hall & Hin).
    rewrite List.Forall_forall in Hall.
    assert (Hbelow : forall x, In (Some x) items ->
                       exists k, getArrayDepth x = Depth k /\ k <= m).
    { intros x Hx. exact (Hall _ (in_map slot_depth _ _ Hx)). }
    assert (Hattained : m <> 0 ->
              exists x, In (Some x) items /\ isArray x = true
                        /\ getArrayDepth x = Depth m).
    { intros Hne. destruct Hin as [-> | Hin]; [now elim Hne|].
      apply in_map_iff in Hin. destruct Hin as (slot & Hs & Hslot).
      destruct slot as [x|]; [|discriminate Hs]. cbn [slot_depth] in Hs.
      exists x. split; [exact Hslot|]. split; [|exact Hs].
      destruct (isArray x) eqn:A; [reflexivity|].
      rewrite (getArrayDepth_not_array _ A) in Hs. congruence. }
    split; [|split].
    + intros x Hx. destruct (Hbelow x Hx) as (k & Ek & Hk).
      exists k. split; [exact Ek | lia].
    + intros Hnone. destruct (Z.eq_dec m 0) as [-> | Hne]; [reflexivity|].
      destruct (Hattained Hne) as (x & Hx & A & _).
      assert (Hsome : existsb slot_isArray items = true).
      { apply existsb_exists. now exists (Some x). }
      congruence.
    + intros Hsome. apply existsb_exists in Hsome.
      destruct Hsome as (slot & Hslot & A).
      destruct slot as [y|]; [|discriminate A]. cbn [slot_isArray] in A.
      pose proof (Dall _ Hslot) as Dy. cbn in Dy.
      destruct (getArrayDepth_dense _ Dy) as (k & Ek & _ & Hk).
      destruct (Hbelow y Hslot) as (k' & Ek' & Hle).
      rewrite Ek in Ek'. injection Ek' as <-. specialize (Hk A).
      destruct (Hattained ltac:(lia)) as (x & Hx & Ax & Ex).
      exists x, m. auto.
Qed.

Lemma getArrayDepth_characterised_witness :
  getArrayDepth
    (JArray [Some (JBigInt 1); Some (JArray [Some (JArray [])]); Some JNull])
  = Depth 3.
Proof.
  destruct (proj2 (proj2
              (getArrayDepth_characterised JNull
                 [Some (JBigInt 1); Some (JArray [Some (JArray [])]);
                  Some JNull])) eq_refl)
    as (n & E & _ & _ & H).
  destruct (H eq_refl) as (x & k & Hx & A & Ek & ->).
  rewrite E.
  destruct Hx as [Hx | [Hx | [Hx | []]]]; injection Hx as <-;
    try discriminate A.
  injection Ek as <-. reflexivity.
Defined.

(** X4: [ARRAY.validate] departs from the inherited validation only on
    an array that holds an array; on every other value, array or not, it
    is the inherited validation. *)
Theorem ARRAY_validate_differs_only_when_nested
  (super_validate : jsval -> result unit) (value : jsval) :
  (ARRAY.validate super_validate value <> super_validate value ->
     exists items, value = JArray items /\ existsb slot_isArray items = true)
  /\ (isArray value = false ->
      ARRAY.validate super_validate value = super_validate value)
  /\ (forall e, ARRAY.validate super_validate value = Throw e ->
        super_validate value = Throw e
        \/ e = DataTypeValidationError
                 "CockroachDB does not support nested arrays.").
Proof.
  unfold ARRAY.validate.
  destruct value as [| | | | | | |items]; cbn [isArray];
    try (split; [intros H; now elim H | split; [reflexivity | auto]]).
  destruct (depth_gt (getArrayDepth (JArray items)) 1) eqn:G.
  - split; [|split].
    + intros _. exists items. split; [reflexivity|].
      now apply depth_above_one_nested.
    + discriminate.
    + intros e [= <-]. now right.
  - split; [intros H; now elim H | split; [reflexivity | auto]].
Qed.

Lemma ARRAY_validate_differs_only_when_nested_witness :
  ARRAY.validate (fun _ => Throw (DataTypeValidationError "not a valid array"))
    (JString "abc")
  = Throw (DataTypeValidationError "not a valid array").
Proof.
  apply (proj1 (proj2 (ARRAY_validate_differs_only_when_nested
                         (fun _ => Throw (DataTypeValidationError "not a valid array"))
                         (JString "abc")))).
  reflexivity.
Defined.

(** X16: on an array free of empty slots at every depth,
    [ARRAY.validate] throws the nested-array error exactly when an
    element is an array, whatever the inherited validation would say,
    and is the inherited validation otherwise. *)
Theorem ARRAY_validate_dense_nesting
  (super_validate : jsval -> result unit) (items : list (option jsval)) :
  dense (JArray items) = true ->
  (existsb slot_isArray items = true ->
     ARRAY.validate super_validate (JArray items)
     = Throw (DataTypeValidationError
                "CockroachDB does not support nested arrays."))
  /\ (existsb slot_isArray items = false ->
      ARRAY.validate super_validate (JArray items)
      = super_validate (JArray items)).
Proof.
  intros D. unfold ARRAY.validate. cbn [isArray]. split; intros H.
  - now rewrite (nested_dense_depth_above_one _ D H).
  - destruct (depth_gt (getArrayDepth (JArray items)) 1) eqn:G;
      [|reflexivity].
    apply depth_above_one_nested in G. congruence.
Qed.

Lemma ARRAY_validate_dense_nesting_witness :
  ARRAY.validate accept_all
    (JArray [Some (JBigInt 1); Some (JArray [Some (JBigInt 2)])])
  = Throw (DataTypeValidationError
             "CockroachDB does not support nested arrays.")
  /\ ARRAY.validate accept_all (JArray [Some (JBigInt 1); Some (JBigInt 2)])
     = Ok tt.
Proof.
  split.
  - exact (proj1 (ARRAY_validate_dense_nesting accept_all
                    [Some (JBigInt 1); Some (JArray [Some (JBigInt 2)])]
                    eq_refl) eq_refl).
  - exact (proj2 (ARRAY_validate_dense_nesting accept_all
                    [Some (JBigInt 1); Some (JBigInt 2)] eq_refl) eq_refl).
Defined.

(** ** Binding an array *)

(** X5: with a raw type name [ARRAY.getBindParamSql] binds the array as
    it is.  With an element data type it binds, as one parameter, the
    array of the elements' bindable values, of the same length and in
    the same order, an empty slot staying empty; it throws exactly when
    some element's conversion throws, with the error of the first such
    element, and then nothing is bound. *)
Theorem ARRAY_getBindParamSql_outcome
  (BindState : Type) (bindParam : jsval -> BindState -> string * BindState)
  (toBindableValue : AbstractDataType -> jsval -> result jsval)
  (values : list (option jsval)) (st : BindState) :
  (forall name,
     ARRAY_bind.getBindParamSql BindState bindParam toBindableValue
       (TypeName name) values st
     = Ok (bindParam (JArray values) st))
  /\ (forall subType r,
        ARRAY_bind.getBindParamSql BindState bindParam toBindableValue
          (DataType subType) values st = Ok r
        <-> exists converted,
              Forall2 (slot_maps_to (toBindableValue subType))
                values converted
              /\ List.length converted = List.length values
              /\ r = bindParam (JArray converted) st)
  /\ (forall subType e,
        ARRAY_bind.getBindParamSql BindState bindParam toBindableValue
          (DataType subType) values st = Throw e
        <-> exists before x after,
              values = (before ++ Some x :: after)%list
              /\ Forall (slot_converts (toBindableValue subType)) before
              /\ toBindableValue subType x = Throw e).
Proof.
  split; [reflexivity|]. split.
  - intros subType r. unfold ARRAY_bind.getBindParamSql. split.
    + destruct (map_slots (toBindableValue subType) values)
        as [converted|e] eqn:M; cbn [bind_result]; [|discriminate].
      intros [= <-]. apply map_slots_Ok in M.
      exists converted. split; [exact M|]. split; [|reflexivity].
      symmetry. eapply Forall2_length. exact M.
    + intros (converted & F & _ & ->).
      apply map_slots_Ok in F. now rewrite F.
  - intros subType e. rewrite <- map_slots_Throw.
    unfold ARRAY_bind.getBindParamSql.
    destruct (map_slots (toBindableValue subType) values) as [c|e'];
      cbn [bind_result]; split; congruence.
Qed.

Lemma ARRAY_getBindParamSql_outcome_witness :
  ARRAY_bind.getBindParamSql nat count_bind refuse_undefined
    (DataType integer_element)
    [Some (JBigInt 1); Some JUndefined; Some (JBigInt 3)] 0%nat
  = Throw (DataTypeValidationError "undefined is not a valid value").
Proof.
  apply (proj2 (proj2 (ARRAY_getBindParamSql_outcome nat count_bind
                         refuse_undefined
                         [Some (JBigInt 1); Some JUndefined; Some (JBigInt 3)]
                         0%nat))
           integer_element).
  exists [Some (JBigInt 1)], JUndefined, [Some (JBigInt 3)].
  split; [reflexivity|]. split; [|reflexivity].
  constructor; [|constructor]. eexists. reflexivity.
Defined.

(** ** Cancelling text *)

Lemma string_length_append (a b : string) :
  String.length (a ++ b) = (String.length a + String.length b)%nat.
Proof.
  induction a as [|c a IH]; [reflexivity|].
  rewrite append_cons. cbn [String.length]. now rewrite IH.
Qed.

Lemma append_inv_head (s a b : string) : s ++ a = s ++ b -> a = b.
Proof.
  induction s as [|c s IH]; [now rewrite !append_nil_l|].
  rewrite !append_cons. intros [= H]. auto.
Qed.

Lemma append_inv_tail (s : string) :
  forall a b : string, a ++ s = b ++ s -> a = b.
Proof.
  assert (L : forall c a, String c a ++ s <> s).
  { intros c a H.
    assert (E : String.length (String c a ++ s) = String.length s)
      by now rewrite H.
    rewrite string_length_append in E. cbn [String.length] in E. lia. }
  induction a as [|c a IH]; intros [|d b].
  - reflexivity.
  - rewrite append_nil_l. intros H. symmetry in H. now apply L in H.
  - rewrite append_nil_l. intros H. now apply L in H.
  - rewrite !append_cons. intros [= -> H]. f_equal. auto.
Qed.

(** ** GEOMETRY.toSql *)

(** X6: [GEOMETRY.toSql] renders the SRID only inside a type.  Without a
    type, or with an empty one, the column is plain [GEOMETRY] whatever
    the SRID; with a type, a missing SRID and the SRID zero both render
    the type alone, while distinct nonzero SRIDs always render distinct
    column types. *)
Theorem GEOMETRY_toSql_srid
  (toUpperCase : string -> string) (type : string) (srid : option Z) :
  GEOMETRY.toSql toUpperCase (mkGeometryOptions None srid) = "GEOMETRY"
  /\ GEOMETRY.toSql toUpperCase (mkGeometryOptions (Some "") srid) = "GEOMETRY"
  /\ (type <> "" ->
      GEOMETRY.toSql toUpperCase (mkGeometryOptions (Some type) None)
      = "GEOMETRY(" ++ toUpperCase type ++ ")"
      /\ GEOMETRY.toSql toUpperCase (mkGeometryOptions (Some type) (Some 0))
         = "GEOMETRY(" ++ toUpperCase type ++ ")"
      /\ (forall a, a <> 0 ->
            GEOMETRY.toSql toUpperCase (mkGeometryOptions (Some type) (Some a))
            = "GEOMETRY(" ++ toUpperCase type ++ "," ++ String_of_bigint a
                ++ ")")
      /\ (forall a b, a <> 0 -> b <> 0 ->
            GEOMETRY.toSql toUpperCase (mkGeometryOptions (Some type) (Some a))
            = GEOMETRY.toSql toUpperCase (mkGeometryOptions (Some type) (Some b))
            -> a = b)).
Proof.
  split; [reflexivity|]. split; [reflexivity|].
  intros Hne. unfold GEOMETRY.toSql. cbn [geo_type geo_srid].
  apply String.eqb_neq in Hne. rewrite Hne.
  split; [reflexivity|]. split; [reflexivity|]. split.
  - intros a Ha. apply Z.eqb_neq in Ha. rewrite Ha.
    rewrite !append_assoc. reflexivity.
  - intros a b Ha Hb.
    apply Z.eqb_neq in Ha, Hb. rewrite Ha, Hb. intros H.
    apply append_inv_tail, append_inv_head in H.
    rewrite !append_cons, !append_nil_l in H. injection H as H.
    now apply String_of_bigint_inj.
Qed.

Lemma GEOMETRY_toSql_srid_witness :
  GEOMETRY.toSql upper_plain (mkGeometryOptions (Some "Point") (Some 4326))
  = "GEOMETRY(POINT,4326)"
  /\ GEOMETRY.toSql upper_plain (mkGeometryOptions (Some "Point") (Some 0))
     = "GEOMETRY(POINT)".
Proof.
  destruct (proj2 (proj2 (GEOMETRY_toSql_srid upper_plain "Point" None))
              ltac:(discriminate)) as (_ & H0 & Ha & _).
  split; [|exact H0].
  rewrite (Ha 4326 ltac:(discriminate)). reflexivity.
Defined.

(** ** Option checking of TEXT and BLOB *)

Lemma drop_length_with_advisory_outcome
  (advisory : DialectState -> string) (super_checkOptionSupport : SizedCheck)
  (this checked : SizedDataType) (dialect dialect1 : DialectState) :
  super_checkOptionSupport this dialect = Ok (checked, dialect1) ->
  exists this' dialect',
    drop_length_with_advisory advisory super_checkOptionSupport this dialect
    = Ok (this', dialect')
    /\ truthy (size_length this') = false
    /\ dialect_name dialect' = dialect_name dialect1
    /\ (truthy (size_length checked) = true ->
        size_length this' = JUndefined
        /\ warnings dialect'
           = (warnings dialect1 ++ [advisory dialect1])%list)
    /\ (truthy (size_length checked) = false ->
        this' = checked /\ dialect' = dialect1)
    /\ drop_length_with_advisory advisory silent_check this' dialect'
       = Ok (this', dialect').
Proof.
  intros Hsuper. unfold drop_length_with_advisory at 1.
  rewrite Hsuper. cbn [bind_result fst snd].
  destruct (truthy (size_length checked)) eqn:T.
  - eexists _, _. split; [reflexivity|].
    split; [reflexivity|]. split; [reflexivity|].
    split; [intros _; split; reflexivity|].
    split; [discriminate | reflexivity].
  - exists checked, dialect1. split; [reflexivity|].
    split; [exact T|]. split; [reflexivity|].
    split; [discriminate|]. split; [auto|].
    unfold drop_length_with_advisory, silent_check.
    cbn [bind_result fst snd]. now rewrite T.
Qed.

(** X7: when the inherited check passes, the option check of TEXT and of
    BLOB leaves no truthy length: a truthy length becomes [undefined]
    and exactly one advisory, naming the dialect, is appended; a length
    that is missing, empty or zero is left alone without an advisory.
    Checking the outcome again records nothing more, and an error of
    the inherited check comes out unchanged. *)
Theorem sized_checkOptionSupport_outcome
  (super_checkOptionSupport : SizedCheck)
  (this : SizedDataType) (dialect : DialectState) :
  (forall e, super_checkOptionSupport this dialect = Throw e ->
     TEXT._checkOptionSupport super_checkOptionSupport this dialect = Throw e
     /\ BLOB._checkOptionSupport super_checkOptionSupport this dialect = Throw e)
  /\ (forall checked dialect1,
        super_checkOptionSupport this dialect = Ok (checked, dialect1) ->
        (exists this' dialect',
           TEXT._checkOptionSupport super_checkOptionSupport this dialect
           = Ok (this', dialect')
           /\ truthy (size_length this') = false
           /\ (truthy (size_length checked) = true ->
               size_length this' = JUndefined
               /\ warnings dialect'
                  = (warnings dialect1 ++ [TEXT.advisory dialect1])%list)
           /\ (truthy (size_length checked) = false ->
               this' = checked /\ dialect' = dialect1)
           /\ TEXT._checkOptionSupport silent_check this' dialect'
              = Ok (this', dialect'))
        /\ (exists this' dialect',
              BLOB._checkOptionSupport super_checkOptionSupport this dialect
              = Ok (this', dialect')
              /\ truthy (size_length this') = false
              /\ (truthy (size_length checked) = true ->
                  size_length this' = JUndefined
                  /\ warnings dialect'
                     = (warnings dialect1 ++ [BLOB.advisory dialect1])%list)
              /\ (truthy (size_length checked) = false ->
                  this' = checked /\ dialect' = dialect1)
              /\ BLOB._checkOptionSupport silent_check this' dialect'
                 = Ok (this', dialect'))).
Proof.
  unfold TEXT._checkOptionSupport, BLOB._checkOptionSupport. split.
  - intros e H. unfold drop_length_with_advisory. rewrite H. now split.
  - intros checked dialect1 H. split.
    + destruct (drop_length_with_advisory_outcome TEXT.advisory _ _ _ _ _ H)
        as (t & d & E & T & _ & W & K & I).
      exists t, d. split; [exact E|]. split; [exact T|].
      split; [intros Q; now apply W|]. split; [exact K | exact I].
    + destruct (drop_length_with_advisory_outcome BLOB.advisory _ _ _ _ _ H)
        as (t & d & E & T & _ & W & K & I).
      exists t, d. split; [exact E|]. split; [exact T|].
      split; [intros Q; now apply W|]. split; [exact K | exact I].
Qed.

Lemma sized_checkOptionSupport_outcome_witness :
  exists this' dialect',
    TEXT._checkOptionSupport silent_check (mkSized (JString "medium"))
      (mkDialect "cockroachdb" [])
    = Ok (this', dialect')
    /\ size_length this' = JUndefined
    /\ warnings dialect'
       = ["cockroachdb does not support TEXT with options. Plain TEXT will be used instead."].
Proof.
  destruct (proj1 (proj2 (sized_checkOptionSupport_outcome silent_check
                            (mkSized (JString "medium"))
                            (mkDialect "cockroachdb" []))
                     (mkSized (JString "medium")) (mkDialect "cockroachdb" [])
                     eq_refl))
    as (t & d & E & _ & W & _).
  exists t, d. split; [exact E|]. exact (W eq_refl).
Defined.

(** ** DATE *)

(** X8: the column type of DATE tells the precisions apart: no precision
    renders [TIMESTAMP WITH TIME ZONE], a precision, zero included,
    renders [TIMESTAMP(p) WITH TIME ZONE], and two options that render
    alike are the same option. *)
Theorem DATE_toSql_injective (p q : option Z) :
  DATE.toSql None = "TIMESTAMP WITH TIME ZONE"
  /\ DATE.toSql (Some 0) = "TIMESTAMP(0) WITH TIME ZONE"
  /\ (DATE.toSql p = DATE.toSql q -> p = q).
Proof.
  split; [reflexivity|]. split; [reflexivity|].
  unfold DATE.toSql. destruct p as [a|], q as [b|]; intros H.
  - f_equal. apply String_of_bigint_inj.
    apply append_inv_head in H. now apply append_inv_tail in H.
  - discriminate H.
  - discriminate H.
  - reflexivity.
Qed.

Lemma DATE_toSql_injective_witness :
  Some 3 = Some 3 :> option Z.
Proof.
  exact (proj2 (proj2 (DATE_toSql_injective (Some 3) (Some 3))) eq_refl).
Defined.

(** X9: whenever [DATE.validate] accepts a value, the inherited
    validation accepted it and [DATE.toBindableValue] is the inherited
    rendering of it: the two literals for the infinities are given only
    to values that validation rejects.  [validate] departs from the
    inherited validation at the infinities alone. *)
Theorem DATE_validated_values_render_inherited
  (super_validate : jsval -> result unit)
  (super_toBindableValue : jsval -> result string) (value : jsval) :
  (DATE.validate super_validate value = Ok tt ->
     super_validate value = Ok tt
     /\ DATE.toBindableValue super_toBindableValue value
        = super_toBindableValue value)
  /\ (DATE.validate super_validate value <> super_validate value ->
      value = JNumber POSITIVE_INFINITY \/ value = JNumber NEGATIVE_INFINITY)
  /\ (DATE.toBindableValue super_toBindableValue value
      <> super_toBindableValue value ->
      exists e, DATE.validate super_validate value = Throw e
                /\ is_validation_error e = true).
Proof.
  unfold DATE.validate, DATE.toBindableValue.
  destruct value as [| | |[| | |m e]| | | |]; cbn;
    try (split; [auto | split; [intros H; now elim H | intros H; now elim H]]).
  - split; [discriminate|]. split; [auto|]. intros _. eexists. split; reflexivity.
  - split; [discriminate|]. split; [auto|]. intros _. eexists. split; reflexivity.
Qed.

Lemma DATE_validated_values_render_inherited_witness :
  DATE.toBindableValue render_plain (JDate 0) = render_plain (JDate 0).
Proof.
  apply (proj1 (DATE_validated_values_render_inherited accept_all render_plain
                  (JDate 0)) eq_refl).
Defined.

(** ** Integers as text *)

(** X10: [INTEGER.sanitize] loses nothing of a bigint: the outcome is
    a string exactly for the integers above [Number.MAX_SAFE_INTEGER],
    and two bigints with the same outcome are the same integer.  A
    number can share its string with a bigint of another value, as
    [2 ** 60] does. *)
Theorem INTEGER_sanitize_injective (a b : Z) :
  ((exists s, INTEGER.sanitize (IntegerBigInt a) = JString s)
   <-> a > MAX_SAFE_INTEGER)
  /\ (INTEGER.sanitize (IntegerBigInt a) = INTEGER.sanitize (IntegerBigInt b) ->
      a = b)
  /\ (forall v, (exists s, INTEGER.sanitize v = JString s)
                <-> integer_value v > MAX_SAFE_INTEGER)
  /\ INTEGER.sanitize two_to_the_60
     = INTEGER.sanitize (IntegerBigInt 1152921504606847000).
Proof.
  assert (Hstring : forall v, (exists s, INTEGER.sanitize v = JString s)
                              <-> integer_value v > MAX_SAFE_INTEGER).
  { intros v. unfold INTEGER.sanitize.
    destruct (Z.gtb_spec (integer_value v) MAX_SAFE_INTEGER) as [G | G]; split.
    - lia.
    - intros _. eexists. reflexivity.
    - intros [s H]. destruct v; discriminate H.
    - lia. }
  split; [exact (Hstring (IntegerBigInt a))|].
  split; [|split; [exact Hstring | vm_compute; reflexivity]].
  unfold INTEGER.sanitize. cbn [integer_value String_of_integer jsval_of_integer].
  destruct (a >? MAX_SAFE_INTEGER), (b >? MAX_SAFE_INTEGER);
    intros H; try discriminate H.
  - injection H as E. now apply String_of_bigint_inj.
  - now injection H.
Qed.

Lemma INTEGER_sanitize_injective_witness :
  (exists s, INTEGER.sanitize (IntegerBigInt (2 ^ 64)) = JString s) /\ 7 = 7.
Proof.
  split.
  - apply (proj1 (INTEGER_sanitize_injective (2 ^ 64) 0)). reflexivity.
  - exact (proj1 (proj2 (INTEGER_sanitize_injective 7 7)) eq_refl).
Defined.

Lemma string_of_uint_all_digits (d : Decimal.uint) :
  all_digits (NilEmpty.string_of_uint d).
Proof.
  induction d; cbn [NilEmpty.string_of_uint];
    [apply all_digits_nil | apply all_digits_cons; split; [reflexivity | assumption] ..].
Qed.

Lemma string_of_uint_nonempty (d : Decimal.uint) :
  d <> Decimal.Nil -> NilEmpty.string_of_uint d <> "".
Proof. destruct d; [contradiction | discriminate ..]. Qed.

Lemma NilZero_string_of_uint_digits (d : Decimal.uint) :
  NilZero.string_of_uint d <> "" /\ all_digits (NilZero.string_of_uint d).
Proof.
  destruct d; cbn [NilZero.string_of_uint];
    [split; [discriminate | apply all_digits_cons; split;
                             [reflexivity | apply all_digits_nil]] | ..];
    (split; [discriminate | apply string_of_uint_all_digits]).
Qed.

Lemma String_of_bigint_signed_digits (z : Z) :
  optionally_signed_digits (String_of_bigint z).
Proof.
  unfold String_of_bigint, optionally_signed_digits.
  destruct (Z.to_int z) as [d | d]; cbn [NilZero.string_of_int];
    destruct (NilZero_string_of_uint_digits d) as [Hne Hd].
  - exists "", (NilZero.string_of_uint d). auto.
  - exists "-", (NilZero.string_of_uint d). auto.
Qed.

Lemma second_not_digit_rejected (first second : ascii) (rest : string) :
  is_digit second = false ->
  ~ optionally_signed_digits (String first (String second rest)).
Proof.
  intros Hs (sign & digits & E & Hsign & Hne & Hd).
  destruct Hsign as [-> | [-> | ->]].
  - rewrite append_nil_l in E. subst digits.
    apply all_digits_cons in Hd as [_ Hd].
    apply all_digits_cons in Hd as [Hd _]. congruence.
  - rewrite append_cons, append_nil_l in E. injection E as _ <-.
    apply all_digits_cons in Hd as [Hd _]. congruence.
  - rewrite append_cons, append_nil_l in E. injection E as _ <-.
    apply all_digits_cons in Hd as [Hd _]. congruence.
Qed.

Lemma empty_rejected : ~ optionally_signed_digits "".
Proof.
  intros (sign & digits & E & Hsign & Hne & _). apply Hne.
  destruct Hsign as [-> | [-> | ->]].
  - now rewrite append_nil_l in E.
  - rewrite append_cons in E. discriminate E.
  - rewrite append_cons in E. discriminate E.
Qed.

(** Exponent notation is never an integer literal. *)
Lemma exponent_text_rejected (v : Z) :
  ~ optionally_signed_digits (exponent_text v).
Proof.
  unfold exponent_text.
  destruct (String_of_bigint (strip_trailing_zeros (decimal_length v) v))
    as [|d [|c rest]].
  - apply empty_rejected.
  - rewrite append_cons. now apply second_not_digit_rejected.
  - rewrite append_cons. now apply second_not_digit_rejected.
Qed.

Lemma BIGINT_stringify_accepts (s : string) :
  optionally_signed_digits s -> BIGINT.stringify s = Ok s.
Proof.
  intros H. unfold BIGINT.stringify.
  now rewrite (proj2 (integer_test_spec s) H).
Qed.

Lemma BIGINT_stringify_rejects (s : string) :
  ~ optionally_signed_digits s ->
  BIGINT.stringify s
  = Throw (DataTypeValidationError (format_not_a_valid_integer s)).
Proof.
  intros H. unfold BIGINT.stringify.
  destruct (test_anchored BIGINT.integer_pattern s) eqn:T; [|reflexivity].
  elim H. now apply integer_test_spec.
Qed.

(** X11: the decimal text of any integer passes [BIGINT.$stringify]
    unchanged, so the string that [INTEGER.sanitize] makes of a bigint
    is accepted as it is and still denotes the integer it came from.
    The string made of a number is accepted when it is written out in
    full, which is below [1e21], and denotes an integer that reads back
    as the number; from [1e21] on it is in exponent notation, which
    [BIGINT.$stringify] rejects. *)
Theorem sanitized_integer_passes_stringify (v : IntegerValue) :
  (forall z, BIGINT.stringify (String_of_bigint z) = Ok (String_of_bigint z))
  /\ (forall z s, v = IntegerBigInt z -> INTEGER.sanitize v = JString s ->
        BIGINT.stringify s = Ok s /\ parse_decimal s = Some z)
  /\ (forall mantissa exponent s,
        v = IntegerNumber mantissa exponent ->
        INTEGER.sanitize v = JString s ->
        exists shown,
          s = Number_text shown
          /\ reads_back_as (integer_value v) shown = true
          /\ (shown < 10 ^ 21 ->
              BIGINT.stringify s = Ok s /\ parse_decimal s = Some shown)
          /\ (10 ^ 21 <= shown ->
              BIGINT.stringify s
              = Throw (DataTypeValidationError (format_not_a_valid_integer s)))).
Proof.
  assert (H : forall z,
            BIGINT.stringify (String_of_bigint z) = Ok (String_of_bigint z)).
  { intros z. apply BIGINT_stringify_accepts, String_of_bigint_signed_digits. }
  split; [exact H|]. split.
  - intros z s ->. unfold INTEGER.sanitize.
    cbn [integer_value String_of_integer jsval_of_integer].
    destruct (z >? MAX_SAFE_INTEGER); intros [= <-].
    split; [apply H | apply parse_decimal_String_of_bigint].
  - intros mantissa exponent s ->. unfold INTEGER.sanitize.
    set (x := integer_value (IntegerNumber mantissa exponent)).
    destruct (Z.gtb_spec x MAX_SAFE_INTEGER) as [G | G];
      [|discriminate].
    assert (Hpos : 0 < x) by (unfold MAX_SAFE_INTEGER in G; lia).
    cbn [String_of_integer]. fold x. unfold String_of_integral_number.
    destruct (Z.eqb_spec x 0); [lia|].
    destruct (Z.ltb_spec x 0); [lia|].
    intros [= <-].
    exists (shortest_decimal (decimal_length x) x).
    split; [reflexivity|].
    split; [apply shortest_decimal_reads_back|]. split.
    + intros Hs. rewrite (Number_text_below_1e21 _ Hs).
      split; [apply H | apply parse_decimal_String_of_bigint].
    + intros Hs. apply BIGINT_stringify_rejects.
      unfold Number_text.
      destruct (Z.ltb_spec (shortest_decimal (decimal_length x) x) (10 ^ 21));
        [lia|].
      apply exponent_text_rejected.
Qed.

Lemma sanitized_integer_passes_stringify_witness :
  BIGINT.stringify "18446744073709551616" = Ok "18446744073709551616"
  /\ exists e, BIGINT.stringify "1e+21" = Throw e.
Proof.
  split.
  - apply (proj1 (proj1 (proj2 (sanitized_integer_passes_stringify
                                  (IntegerBigInt (2 ^ 64))))
                    (2 ^ 64) "18446744073709551616" eq_refl eq_refl)).
  - destruct (proj2 (proj2 (sanitized_integer_passes_stringify
                              (IntegerNumber 476837158203125 21)))
                476837158203125 21%N "1e+21" eq_refl
                ltac:(vm_compute; reflexivity))
      as (shown & E & _ & _ & R).
    eexists. apply R.
    destruct (Z.ltb_spec shown (10 ^ 21)) as [L | L]; [|exact L].
    exfalso. unfold Number_text in E.
    destruct (Z.ltb_spec shown (10 ^ 21)) as [_ | L']; [|lia].
    pose proof (String_of_bigint_signed_digits shown) as D.
    rewrite <- E in D. revert D.
    now apply second_not_digit_rejected.
Defined.

(** X12: what [BIGINT.$stringify] returns is its argument, which it
    accepts again; and the error it raises identifies the rejected
    string: two strings rejected with the same error are equal. *)
Theorem BIGINT_stringify_error_identifies_value (a b : string) :
  (forall r, BIGINT.stringify a = Ok r ->
     r = a /\ BIGINT.stringify r = Ok r)
  /\ (forall e, BIGINT.stringify a = Throw e ->
        BIGINT.stringify b = Throw e -> a = b).
Proof.
  unfold BIGINT.stringify. split.
  - intros r. destruct (test_anchored BIGINT.integer_pattern a) eqn:T;
      cbn [negb]; intros [= <-].
    rewrite T. auto.
  - intros e.
    destruct (test_anchored BIGINT.integer_pattern a); cbn [negb];
      [discriminate|].
    destruct (test_anchored BIGINT.integer_pattern b); cbn [negb];
      [discriminate|].
    intros Ha Hb.
    assert (F : format_not_a_valid_integer a = format_not_a_valid_integer b)
      by congruence.
    unfold format_not_a_valid_integer in F. apply append_inv_tail in F.
    assert (E : JSON_parse_string (JSON_stringify a)
                = JSON_parse_string (JSON_stringify b)) by now rewrite F.
    rewrite !JSON_parse_stringify in E. congruence.
Qed.

Lemma BIGINT_stringify_error_identifies_value_witness :
  BIGINT.stringify "+42" = Ok "+42" /\ "1.5" = "1.5".
Proof.
  split.
  - apply (proj1 (BIGINT_stringify_error_identifies_value "+42" "") "+42").
    reflexivity.
  - exact (proj2 (BIGINT_stringify_error_identifies_value "1.5" "1.5")
             _ eq_refl eq_refl).
Defined.

(** ** Outcomes of ENUM.toSql *)

(** X13: [ENUM.toSql] succeeds exactly when a usage context is attached,
    its table and column can be read, and the query generator is this
    dialect's.  A model context whose attribute is not among the model's
    attributes fails with a type error, before the generator is looked
    at; a readable context on another generator fails the assertion;
    and no failure is a data validation error. *)
Theorem ENUM_toSql_outcomes (usageContext : option UsageContext) :
  ((exists sql, ENUM.toSql usageContext = Ok sql)
   <-> exists context owner pgEnumName,
         usageContext = Some context
         /\ ENUM.owner context = Ok owner
         /\ context_queryGenerator context
            = CockroachDbQueryGenerator pgEnumName)
  /\ (forall model attributeName generator,
        getAttributes model !! attributeName = None ->
        ENUM.toSql (Some (ModelAttributeContext model attributeName generator))
        = Throw (TypeError
                   "Cannot read properties of undefined (reading 'field')"))
  /\ (forall context owner,
        ENUM.owner context = Ok owner ->
        context_queryGenerator context = ForeignQueryGenerator ->
        ENUM.toSql (Some context)
        = Throw (AssertionError
                   "expected queryGenerator to be PostgresQueryGenerator"))
  /\ (forall e, ENUM.toSql usageContext = Throw e ->
        is_validation_error e = false).
Proof.
  split; [|split; [|split]].
  - split.
    + destruct usageContext as [context|]; [|intros [sql H]; discriminate H].
      unfold ENUM.toSql. destruct (ENUM.owner context) as [o|e] eqn:O;
        cbn [bind_result]; [|intros [sql H]; discriminate H].
      destruct (context_queryGenerator context) as [pg|] eqn:G;
        [|intros [sql H]; discriminate H].
      intros _. now exists context, o, pg.
    + intros (context & o & pg & -> & O & G). unfold ENUM.toSql.
      rewrite O, G. cbn [bind_result]. eexists. reflexivity.
  - intros model attributeName generator H. unfold ENUM.toSql, ENUM.owner.
    now rewrite H.
  - intros context o O G. unfold ENUM.toSql. now rewrite O, G.
  - intros e. destruct usageContext as [context|]; [|now intros [= <-]].
    unfold ENUM.toSql.
    destruct (ENUM.owner context) as [o|e'] eqn:O; cbn [bind_result].
    + destruct (context_queryGenerator context); [discriminate|].
      now intros [= <-].
    + intros [= <-]. destruct context as [model attributeName g | t c g];
        cbn in O; [|discriminate].
      destruct (getAttributes model !! attributeName); [discriminate|].
      now injection O as <-.
Qed.

Lemma ENUM_toSql_outcomes_witness :
  ENUM.toSql (Some (ModelAttributeContext users_model "age"
                      (CockroachDbQueryGenerator sample_pgEnumName)))
  = Throw (TypeError "Cannot read properties of undefined (reading 'field')")
  /\ ENUM.toSql (Some (TableColumnContext (TableName_string "users") "mood"
                         ForeignQueryGenerator))
     = Throw (AssertionError
                "expected queryGenerator to be PostgresQueryGenerator").
Proof.
  split.
  - apply (proj1 (proj2 (ENUM_toSql_outcomes None))).
    reflexivity.
  - apply (proj1 (proj2 (proj2 (ENUM_toSql_outcomes None)))
             _ (TableName_string "users", "mood")); reflexivity.
Defined.

(** ** Sanitizing dates *)

(** X14: [DATE.sanitize] returns [null], [undefined] and dates as they
    are, without consulting the inherited sanitizer.  When the inherited
    sanitizer only ever returns dates, sanitizing is stable: whatever
    [sanitize] returns, it returns again when given it. *)
Theorem DATE_sanitize_stable
  (super_sanitize : jsval -> result jsval) (value result : jsval) :
  (isNullish value || isDate value = true ->
     DATE_sanitize super_sanitize value = Ok value)
  /\ ((forall v r, super_sanitize v = Ok r -> isDate r = true) ->
      DATE_sanitize super_sanitize value = Ok result ->
      isNullish result || isDate result = true
      /\ DATE_sanitize super_sanitize result = Ok result).
Proof.
  assert (P : forall v, isNullish v || isDate v = true ->
                        DATE_sanitize super_sanitize v = Ok v).
  { intros v H. unfold DATE_sanitize.
    destruct (isNullish v); [reflexivity|]. cbn in H. now rewrite H. }
  split; [apply P|].
  intros Hsuper H.
  assert (Q : isNullish result || isDate result = true).
  { unfold DATE_sanitize in H.
    destruct (isNullish value) eqn:N; [injection H as <-; now rewrite N|].
    destruct (isDate value) eqn:D;
      [injection H as <-; rewrite D; apply orb_true_r|].
    rewrite (Hsuper _ _ H). apply orb_true_r. }
  split; [exact Q | now apply P].
Qed.

Lemma DATE_sanitize_stable_witness :
  DATE_sanitize date_of_epoch (JDate 86400000) = Ok (JDate 86400000).
Proof.
  apply (proj2 (DATE_sanitize_stable date_of_epoch (JBigInt 86400000)
                  (JDate 86400000))).
  - intros v r. destruct v; cbn; try discriminate. now intros [= <-].
  - reflexivity.
Defined.

(** ** Rendering after option checking *)

(** X15: dropping an unsupported length never changes the column type:
    for each of TINYINT, SMALLINT, MEDIUMINT and INTEGER, the type
    renders the same before and after
    [removeUnsupportedIntegerOptions], with or without the unsigned
    option. *)
Theorem integer_toSql_unaffected_by_length_drop
  (this : BaseIntegerDataType) (dialect : DialectState) :
  let this' := fst (removeUnsupportedIntegerOptions this dialect) in
  TINYINT.toSql this' = TINYINT.toSql this
  /\ SMALLINT.toSql this' = SMALLINT.toSql this
  /\ MEDIUMINT.toSql this' = MEDIUMINT.toSql this
  /\ INTEGER.toSql this' = INTEGER.toSql this.
Proof.
  unfold removeUnsupportedIntegerOptions.
  destruct (opt_length (options this)); cbn; repeat split.
Qed.
